(** * gregory.py: the Gregory discount monitor

    A shallow embedding of [src/gregory.py]: the configuration record and
    [Config.validate], [main], and [GregoryMonitor] with [check_discount],
    [send_email] and the [run] loop.

    Modelling choices:
    - Python [str] values are lists of characters with code points 0..255
      (an [ascii] is read as the code point U+0000..U+00FF); [str.lower],
      [str.strip] and [str.isspace] are written out on that range.
    - The page, as BeautifulSoup parses it, is a forest of element and text
      nodes; [requests.get] and the parser are external, so their results
      (or the exceptions they raise) are inputs of the model.
    - Wall-clock readings ([time.time()]) are integers.
    - Effects (logging, SMTP, sleeping) are recorded in a trace threaded
      by a small state-and-exception monad, together with the only mutable
      field of the monitor, [self.last_sent]. *)

From Stdlib Require Import List Ascii String ZArith Bool Lia.
Import ListNotations.

#[local] Set Warnings "-register-all".

(** ** Python strings *)

Definition str := list ascii.

Definition py (x : string) : str := list_ascii_of_string x.

(** [str.isspace] on U+0000..U+00FF: \t \n \v \f \r, \x1c..\x1f, ' ',
    U+0085 and U+00A0. *)
Definition is_space (c : ascii) : bool :=
  let n := nat_of_ascii c in
  ((9 <=? n) && (n <=? 13)) || ((28 <=? n) && (n <=? 32)) || (n =? 133) || (n =? 160).

(** [str.lower] on U+0000..U+00FF: A..Z and U+00C0..U+00DE but U+00D7 are
    moved 32 code points up; every other character is kept. *)
Definition lower_char (c : ascii) : ascii :=
  let n := nat_of_ascii c in
  if ((65 <=? n) && (n <=? 90)) || ((192 <=? n) && (n <=? 222) && negb (n =? 215))
  then ascii_of_nat (n + 32) else c.

Definition py_lower (t : str) : str := map lower_char t.

Fixpoint lstrip (t : str) : str :=
  match t with
  | [] => []
  | c :: t' => if is_space c then lstrip t' else t
  end.

(** [str.strip()]. *)
Definition strip (t : str) : str := rev (lstrip (rev (lstrip t))).

(** [sep.join(parts)]. *)
Fixpoint join (sep : str) (parts : list str) : str :=
  match parts with
  | [] => []
  | [p] => p
  | p :: ps => p ++ sep ++ join sep ps
  end.

Fixpoint prefixb (w t : str) : bool :=
  match w, t with
  | [], _ => true
  | _ :: _, [] => false
  | a :: w', b :: t' => Ascii.eqb a b && prefixb w' t'
  end.

(** The substring test [w in t]. *)
Fixpoint infixb (w t : str) : bool :=
  prefixb w t ||
  match t with
  | [] => false
  | _ :: t' => infixb w t'
  end.

Fixpoint str_eqb (a b : str) : bool :=
  match a, b with
  | [], [] => true
  | x :: a', y :: b' => Ascii.eqb x y && str_eqb a' b'
  | _, _ => false
  end.

(** ** The page as BeautifulSoup sees it *)

Inductive node : Type :=
| Text (t : str)
| Elem (tag : str) (children : list node).

(** The tags whose subtrees are decomposed: [soup(["script", "style", "noscript"])]. *)
Definition removed_tag (tag : str) : bool :=
  existsb (str_eqb tag) [py "script"; py "style"; py "noscript"].

(** [for element in soup([...]): element.decompose()]: every script, style
    and noscript element is removed together with its subtree. *)
Fixpoint decompose_node (n : node) : list node :=
  match n with
  | Text t => [Text t]
  | Elem g cs =>
      if removed_tag g then []
      else [Elem g ((fix go (l : list node) : list node :=
                       match l with
                       | [] => []
                       | c :: r => decompose_node c ++ go r
                       end) cs)]
  end.

Definition decompose (ns : list node) : list node := flat_map decompose_node ns.

(** The keys of [string_containers] of bs4's HTML tree builders (bs4 4.10
    and later): while the parser is inside one of these tags, it stores
    each string with a subclass of [NavigableString] ([RubyTextString],
    [RubyParenthesisString], [Stylesheet], [Script], [TemplateString]),
    chosen by the innermost such tag. *)
Definition string_container (tag : str) : bool :=
  existsb (str_eqb tag) [py "rt"; py "rp"; py "style"; py "script"; py "template"].

(** The strings [get_text] visits, in document order (bs4's [_all_strings]
    with its default types): only plain [NavigableString]s, so nothing
    below a string container.  A [Text] node is a [NavigableString] of the
    parse; comments and doctypes, which [get_text] skips too, are not
    [Text] nodes. *)
Fixpoint node_strings (n : node) : list str :=
  match n with
  | Text t => [t]
  | Elem g cs =>
      if string_container g then []
      else
      (fix go (l : list node) : list str :=
         match l with
         | [] => []
         | c :: r => node_strings c ++ go r
         end) cs
  end.

Definition strings (ns : list node) : list str := flat_map node_strings ns.

Definition nonempty (t : str) : bool :=
  match t with [] => false | _ => true end.

(** [soup.get_text(separator=sep, strip=True)]: each string is stripped,
    empty ones are skipped, the rest joined with [sep]. *)
Definition get_text (sep : str) (ns : list node) : str :=
  join sep (filter nonempty (map strip (strings ns))).

(** [text = soup.get_text(separator=' ', strip=True).lower()] after the
    decomposition. *)
Definition page_text (ns : list node) : str :=
  py_lower (get_text (py " ") (decompose ns)).

(** [self.keywords], in one enumeration order of the Python set. *)
Definition keywords : list str :=
  map py ["sale"; "discount"; "off"; "promo"; "coupon"; "clearance";
          "% off"; "special offer"]%string.

(** [found_keywords = [kw for kw in self.keywords if kw in text]]. *)
Definition detect (kws : list str) (text : str) : list str :=
  filter (fun kw => infixb kw text) kws.

(** ** Exceptions and the effect monad *)

Open Scope Z_scope.

(** The exception classes that reach the code's handlers.  [KeyboardInterrupt]
    derives from [BaseException] only; all others are [Exception]s
    ([HTTPError], [ConnectionError], [Timeout] are [RequestException]s;
    [SMTPResponseException] and [SMTPAuthenticationError] are
    [SMTPException]s). *)
Inductive exn : Type :=
| KeyboardInterrupt
| RequestException
| SMTPException
| ValueError
| OverflowError
| OSError
| OtherException.


Inductive res (A : Type) : Type :=
| Ok (a : A)
| Exc (e : exn).
Arguments Ok {A} a.
Arguments Exc {A} e.

Inductive level : Type := INFO | ERROR.

(** The log lines the code writes (the Chinese message texts in comments). *)
Inductive message : Type :=
| MsgStart                     (* 启动折扣监控服务 *)
| MsgFound (kws : list str)    (* 发现折扣关键词：... *)
| MsgRequestError              (* 网络请求异常：... *)
| MsgCheckError                (* 检查过程中发生异常：... *)
| MsgMailSent                  (* 邮件发送成功 *)
| MsgSmtpError                 (* SMTP错误：... *)
| MsgMailError                 (* 邮件发送失败：... *)
| MsgCooldown                  (* 检测到折扣，但仍在冷却期内 *)
| MsgNoDiscount                (* 未检测到折扣信息 *)
| MsgInterrupted               (* 用户中断监控 *)
| MsgLoopError.                (* 主循环异常：... *)

(** Observable effects. *)
Inductive event : Type :=
| Log (l : level) (m : message)
| SmtpConnect                  (* smtplib.SMTP(server, port) opens a session *)
| MailDelivered                (* server.sendmail(...) returned *)
| Slept (seconds : Z).         (* time.sleep(seconds) ran to completion *)

(** The monitor's mutable field [self.last_sent] and the effect trace. *)
Record mstate : Type := MState {
  last_sent : Z;
  trace : list event
}.

Definition M (A : Type) : Type := mstate -> res A * mstate.

Definition ret {A} (a : A) : M A := fun s => (Ok a, s).

Definition bind {A B} (m : M A) (k : A -> M B) : M B :=
  fun s => match m s with
           | (Ok a, s') => k a s'
           | (Exc e, s') => (Exc e, s')
           end.

Notation "'let*' x ':=' m 'in' k" := (bind m (fun x => k))
  (at level 200, x name, m at level 100, k at level 200).

Definition raise {A} (e : exn) : M A := fun s => (Exc e, s).

(** A value or exception delivered by the outside world. *)
Definition lift {A} (r : res A) : M A := fun s => (r, s).

Definition emit (ev : event) : M unit :=
  fun s => (Ok tt, MState (last_sent s) (trace s ++ [ev])).

Definition log (l : level) (m : message) : M unit := emit (Log l m).

Definition get_last_sent : M Z := fun s => (Ok (last_sent s), s).

Definition set_last_sent (t : Z) : M unit :=
  fun s => (Ok tt, MState t (trace s)).

(** [try: body except ...]: [handler e = None] when no clause matches, and
    the exception propagates.  A handler runs outside the [try], so what it
    raises propagates as well. *)
Definition try_except {A} (body : M A) (handler : exn -> option (M A)) : M A :=
  fun s => match body s with
           | (Ok a, s') => (Ok a, s')
           | (Exc e, s') =>
               match handler e with
               | Some h => h s'
               | None => (Exc e, s')
               end
           end.

(** The range of CPython's [_PyTime_t], a signed 64-bit count of
    nanoseconds. *)
Definition pytime_min : Z := - 2 ^ 63.
Definition pytime_max : Z := 2 ^ 63 - 1.

(** The exception [time.sleep(n)] raises before sleeping, for an [int] [n]
    (CPython 3.11 on Linux), given the reading [clock] of the monotonic
    clock in nanoseconds:
    - [_PyTime_FromSecondsObject] raises [OverflowError] when [n] seconds
      are not a [_PyTime_t];
    - a negative length raises [ValueError];
    - [pysleep] sets the deadline to [clock + n * 10^9]; past
      [pytime_max] the sum wraps around to a negative deadline, which
      [clock_nanosleep] refuses with [EINVAL], raised as [OSError]. *)
Definition sleep_error (n clock : Z) : option exn :=
  if (n * 10 ^ 9 <? pytime_min) || (pytime_max <? n * 10 ^ 9) then Some OverflowError
  else if n <? 0 then Some ValueError
  else if pytime_max <? clock + n * 10 ^ 9 then Some OSError
  else None.

(** [time.sleep(n)]: the errors above, then an operator interrupt during
    the sleep raises [KeyboardInterrupt]. *)
Definition sleep (n clock : Z) (interrupted : bool) : M unit :=
  match sleep_error n clock with
  | Some x => raise x
  | None => if interrupted then raise KeyboardInterrupt else emit (Slept n)
  end.

(** ** Configuration *)

Record Config : Type := MkConfig {
  website_url : str;
  check_interval : Z;
  smtp_server : str;
  smtp_port : Z;
  email_user : str;
  email_password : str;
  sender : str;
  receiver : str;
  user_agent : str
}.

Inductive pyval : Type := PStr (s : str) | PInt (z : Z).

(** Python truthiness: [not value]. *)
Definition falsy (v : pyval) : bool :=
  match v with
  | PStr s => negb (nonempty s)
  | PInt z => Z.eqb z 0
  end.

(** [self.__dict__.items()] in declaration order. *)
Definition config_items (c : Config) : list (string * pyval) :=
  [("website_url", PStr (website_url c));
   ("check_interval", PInt (check_interval c));
   ("smtp_server", PStr (smtp_server c));
   ("smtp_port", PInt (smtp_port c));
   ("email_user", PStr (email_user c));
   ("email_password", PStr (email_password c));
   ("sender", PStr (sender c));
   ("receiver", PStr (receiver c));
   ("user_agent", PStr (user_agent c))]%string.

(** The message [f"配置项 {field} 不能为空"]. *)
Inductive config_error : Type := FieldEmpty (field : string).

Definition validate (c : Config) : list config_error :=
  map (fun '(f, _) => FieldEmpty f) (filter (fun '(_, v) => falsy v) (config_items c)).

(** [main()] after [Config.from_env()]: either it prints the errors and
    returns (exit code 0) or it builds the monitor and enters [run]. *)
Inductive main_outcome : Type :=
| PrintedAndReturned (printed : list config_error)
| StartedLoop.

Definition main (c : Config) : main_outcome :=
  match validate c with
  | [] => StartedLoop
  | errors => PrintedAndReturned errors
  end.

(** ** The monitor *)

(** [self.cooldown]. *)
Definition cooldown : Z := 86400.

(** The initial monitor state: [self.last_sent = 0]. *)
Definition monitor_init : mstate := MState 0 [].

(** A response of [requests.get]; [body] is BeautifulSoup's parse of
    [response.text], or the exception the parse raises. *)
Record response : Type := MkResponse {
  status_code : Z;
  body : res (list node)
}.

(** [response.raise_for_status()]: [HTTPError] for 400..599. *)
Definition raise_for_status (r : response) : M unit :=
  if (400 <=? status_code r) && (status_code r <? 600) then raise RequestException
  else ret tt.

Definition check_discount (kws : list str) (get : res response) : M bool :=
  try_except
    (let* r := lift get in
     let* _ := raise_for_status r in
     let* soup := lift (body r) in
     let text := page_text soup in
     let found_keywords := detect kws text in
     match found_keywords with
     | [] => ret false
     | _ => let* _ := log INFO (MsgFound found_keywords) in ret true
     end)
    (fun e => match e with
              | KeyboardInterrupt => None
              | RequestException => Some (let* _ := log ERROR MsgRequestError in ret false)
              | _ => Some (let* _ := log ERROR MsgCheckError in ret false)
              end).

(** [send_email]: [session] is the outcome of connecting, [starttls],
    [login] and [sendmail]; [quit] the outcome of the [QUIT] issued when the
    [with] block exits (a reply other than 221 raises
    [SMTPResponseException]). *)
Definition send_email (session quit : res unit) : M bool :=
  try_except
    (let* _ := emit SmtpConnect in
     let* _ := lift session in
     let* _ := emit MailDelivered in
     let* _ := lift quit in
     let* _ := log INFO MsgMailSent in
     ret true)
    (fun e => match e with
              | KeyboardInterrupt => None
              | SMTPException => Some (let* _ := log ERROR MsgSmtpError in ret false)
              | _ => Some (let* _ := log ERROR MsgMailError in ret false)
              end).

(** What the outside world answers during one iteration of the loop. *)
Record cycle_env : Type := MkEnv {
  ce_get : res response;       (* requests.get(...) *)
  ce_now : Z;                  (* time.time() *)
  ce_session : res unit;       (* the SMTP session up to sendmail *)
  ce_quit : res unit;          (* QUIT on leaving the with block *)
  ce_sleep_intr : bool;        (* Ctrl-C during time.sleep(check_interval) *)
  ce_recovery_intr : bool;     (* Ctrl-C during time.sleep(300) *)
  ce_clock : Z;                (* monotonic clock (ns) at time.sleep(check_interval) *)
  ce_recovery_clock : Z        (* monotonic clock (ns) at time.sleep(300) *)
}.

(** The body of the [try] in [run]. *)
Definition cycle (c : Config) (e : cycle_env) : M unit :=
  let* found := check_discount keywords (ce_get e) in
  let* _ :=
    if found then
      let current_time := ce_now e in
      let* ls := get_last_sent in
      if cooldown <? current_time - ls then
        let* ok := send_email (ce_session e) (ce_quit e) in
        if ok then set_last_sent current_time else ret tt
      else log INFO MsgCooldown
    else log INFO MsgNoDiscount in
  sleep (check_interval c) (ce_clock e) (ce_sleep_intr e).

Inductive loop_ctl : Type := Continue | Break.

(** One iteration of [while True: try: ... except ...]. *)
Definition iteration (c : Config) (e : cycle_env) : M loop_ctl :=
  try_except
    (let* _ := cycle c e in ret Continue)
    (fun ex => match ex with
               | KeyboardInterrupt =>
                   Some (let* _ := log INFO MsgInterrupted in ret Break)
               | _ =>
                   Some (let* _ := log ERROR MsgLoopError in
                         let* _ := sleep 300 (ce_recovery_clock e) (ce_recovery_intr e) in
                         ret Continue)
               end).

(** How far the loop got on a finite prefix of the world's answers. *)
Inductive loop_status : Type :=
| StillRunning     (* the loop is still iterating *)
| LoopExited.      (* [break] was executed *)

Fixpoint run_cycles (c : Config) (es : list cycle_env) : M loop_status :=
  match es with
  | [] => ret StillRunning
  | e :: es' =>
      let* ctl := iteration c e in
      match ctl with
      | Break => ret LoopExited
      | Continue => run_cycles c es'
      end
  end.

Definition run (c : Config) (es : list cycle_env) : M loop_status :=
  let* _ := log INFO MsgStart in run_cycles c es.

(** ** Inputs and observations used in the statements *)

Definition page (s : string) : list node := [Elem (py "p") [Text (py s)]].

Definition ok_page (ns : list node) : res response := Ok (MkResponse 200 (Ok ns)).

Definition cfg1 : Config :=
  MkConfig (py "https://example.com") 1 (py "smtp.example.com") 587 (py "u") (py "pw")
           (py "a@example.com") (py "b@example.com") (py "UA").

(** A monotonic clock reading one hour after boot. *)
Definition clock_1h : Z := 3600 * 10 ^ 9.

Definition env_at (t : Z) (g : res response) (smtp : res unit) : cycle_env :=
  MkEnv g t smtp (Ok tt) false false clock_1h clock_1h.

Definition infix (w t : str) : Prop := exists l r, t = l ++ w ++ r.



Fixpoint node_rect' (P : node -> Prop) (HT : forall t, P (Text t))
  (HE : forall g cs, Forall P cs -> P (Elem g cs)) (n : node) : P n :=
  match n with
  | Text t => HT t
  | Elem g cs =>
      HE g cs ((fix go (l : list node) : Forall P l :=
                  match l with
                  | [] => Forall_nil P
                  | c :: r => Forall_cons c (node_rect' P HT HE c) (go r)
                  end) cs)
  end.


Definition is_mail_sent (ev : event) : bool :=
  match ev with Log INFO MsgMailSent => true | _ => false end.

(** Notifications [send_email] reported successful ("邮件发送成功"). *)
Definition sent_count (tr : list event) : nat := List.length (filter is_mail_sent tr).

Definition is_connect (ev : event) : bool :=
  match ev with SmtpConnect => true | _ => false end.

Definition check_result (kws : list str) (g : res response) : res bool :=
  fst (check_discount kws g monitor_init).

Definition check_log (kws : list str) (g : res response) : list event :=
  trace (snd (check_discount kws g monitor_init)).

Definition send_result (session quit : res unit) : res bool :=
  fst (send_email session quit monitor_init).

Definition send_log (session quit : res unit) : list event :=
  trace (snd (send_email session quit monitor_init)).

Definition is_true_res (r : res bool) : bool :=
  match r with Ok true => true | _ => false end.

(** The wall-clock times of the cycles of a run in which [send_email]
    reported success, i.e. which logged "邮件发送成功". *)
Fixpoint notified_times (c : Config) (es : list cycle_env) (s : mstate) : list Z :=
  match es with
  | [] => []
  | e :: es' =>
      let (r, s') := iteration c e s in
      (if (sent_count (trace s) <? sent_count (trace s'))%nat then [ce_now e] else [])
      ++ match r with
         | Ok Continue => notified_times c es' s'
         | _ => []
         end
  end.

(** Whether an iteration reaches [send_email]: a match, and the cooldown
    has elapsed since [last_sent]. *)
Definition attempts (e : cycle_env) (ls : Z) : bool :=
  is_true_res (check_result keywords (ce_get e)) && (cooldown <? ce_now e - ls).



Definition cfg_zero_interval : Config :=
  MkConfig (py "https://example.com") 0 (py "smtp.example.com") 587 (py "u") (py "pw")
           (py "a@example.com") (py "b@example.com") (py "UA").

Definition sale_page : res response := ok_page (page "Big SALE").

Definition env_send_fails : cycle_env :=
  MkEnv sale_page 1700000000 (Exc SMTPException) (Ok tt) false false clock_1h clock_1h.

Definition env_quiet : cycle_env :=
  MkEnv (ok_page (page "Welcome")) 1700000600 (Ok tt) (Ok tt) false false clock_1h clock_1h.

Definition env_retry : cycle_env :=
  MkEnv sale_page 1700001200 (Ok tt) (Ok tt) false false clock_1h clock_1h.


Definition env_down : cycle_env :=
  MkEnv (Ok (MkResponse 503 (Ok (page "Big SALE")))) 1700000000 (Ok tt) (Ok tt) false false clock_1h clock_1h.

(** A configuration that passes [validate] with a negative poll interval. *)
Definition cfg_neg : Config :=
  MkConfig (py "https://shop.example") (-1) (py "smtp.example") 587
    (py "bot") (py "pw") (py "bot@example") (py "me@example") (py "Mozilla/5.0").

(** ** [Config.from_env] *)

(** [int(x)] on a [str], base 10 ([PyLong_FromUnicodeObject]): the string
    is first made ASCII, then [PyLong_FromString] skips the whitespace
    around the number ([Py_ISSPACE]), reads an optional sign, then digits
    where single underscores may separate two digits; more than 4300 digits
    raise [ValueError] (the default [sys.get_int_max_str_digits()]), as
    does any other string. *)
Definition is_digit (c : ascii) : bool :=
  (48 <=? nat_of_ascii c)%nat && (nat_of_ascii c <=? 57)%nat.

Definition digit_val (c : ascii) : Z := Z.of_nat (nat_of_ascii c - 48).

(** The digits (and underscores) after the sign: the value read so far and
    the number of digits. *)
Fixpoint dec_body (t : str) (acc : Z) (n : nat) : option (Z * nat) :=
  match t with
  | [] => Some (acc, n)
  | c :: t' =>
      if is_digit c then dec_body t' (acc * 10 + digit_val c) (S n)
      else if Ascii.eqb c "_" then
        match t' with
        | d :: t'' => if is_digit d then dec_body t'' (acc * 10 + digit_val d) (S n) else None
        | [] => None
        end
      else None
  end.

Definition max_str_digits : nat := 4300.

(** [Py_ISSPACE]: \t \n \v \f \r and ' '. *)
Definition py_isspace (c : ascii) : bool :=
  let n := nat_of_ascii c in ((9 <=? n)%nat && (n <=? 13)%nat) || (n =? 32)%nat.

Fixpoint int_lstrip (t : str) : str :=
  match t with
  | [] => []
  | c :: t' => if py_isspace c then int_lstrip t' else t
  end.

Definition int_strip (t : str) : str := rev (int_lstrip (rev (int_lstrip t))).

(** The loop of [_PyUnicode_TransformDecimalAndSpaceToASCII] on a
    non-ASCII string: characters below U+007F are kept, whitespace
    (U+0085, U+00A0) becomes ' ', and the first other character becomes
    '?' and ends the string (no character of U+007F..U+00FF is a decimal
    digit). *)
Fixpoint to_ascii_loop (t : str) : str :=
  match t with
  | [] => []
  | c :: t' =>
      let n := nat_of_ascii c in
      if (n <? 127)%nat then c :: to_ascii_loop t'
      else if (n =? 133)%nat || (n =? 160)%nat then " "%char :: to_ascii_loop t'
      else ["?"%char]
  end.

(** [_PyUnicode_TransformDecimalAndSpaceToASCII]: an ASCII string is
    returned as it is. *)
Definition to_ascii (t : str) : str :=
  if forallb (fun c => nat_of_ascii c <? 128)%nat t then t else to_ascii_loop t.

Definition py_int (v : pyval) : res Z :=
  match v with
  | PInt z => Ok z
  | PStr s =>
      let t := int_strip (to_ascii s) in
      let '(neg, b) :=
        match t with
        | c :: r => if Ascii.eqb c "-" then (true, r)
                    else if Ascii.eqb c "+" then (false, r) else (false, t)
        | [] => (false, [])
        end in
      match b with
      | d :: _ =>
          if is_digit d then
            match dec_body b 0 0 with
            | Some (x, n) => if (max_str_digits <? n)%nat then Exc ValueError
                             else Ok (if neg then - x else x)
            | None => Exc ValueError
            end
          else Exc ValueError
      | [] => Exc ValueError
      end
  end.

(** [str(n)] for an [int]. *)
Definition digit_char (d : Z) : ascii := ascii_of_nat (48 + Z.to_nat d).

Fixpoint digits_aux (fuel : nat) (n : Z) (acc : str) : str :=
  match fuel with
  | O => acc
  | S f => if n <? 10 then digit_char n :: acc
           else digits_aux f (n / 10) (digit_char (n mod 10) :: acc)
  end.

Definition nat_digits (n : Z) : str := digits_aux (S (Z.to_nat (Z.log2 n))) n [].

Definition py_str_int (n : Z) : str :=
  if n <? 0 then "-"%char :: nat_digits (- n) else nat_digits n.

(** The value of a digit string read after [acc]. *)
Definition dval (acc : Z) (t : str) : Z := fold_left (fun a c => a * 10 + digit_val c) t acc.

(** [os.environ] once [load_dotenv()] has run: variable names and values. *)
Definition environ : Type := list (string * str).

Fixpoint env_lookup (env : environ) (k : string) : option str :=
  match env with
  | [] => None
  | (k', v) :: env' => if String.eqb k k' then Some v else env_lookup env' k
  end.

(** [os.getenv(k, default)]. *)
Definition getenv (env : environ) (k : string) (default : pyval) : pyval :=
  match env_lookup env k with Some v => PStr v | None => default end.

(** [os.getenv(k, "")]. *)
Definition getenv_str (env : environ) (k : string) : str :=
  match env_lookup env k with Some v => v | None => [] end.

(** [Config.from_env()] (after [load_dotenv()]); the arguments are evaluated
    in order, and each [int(...)] may raise [ValueError]. *)
Definition from_env (env : environ) : res Config :=
  match py_int (getenv env "CHECK_INTERVAL" (PInt 1800)) with
  | Exc e => Exc e
  | Ok ci =>
      match py_int (getenv env "SMTP_PORT" (PInt 587)) with
      | Exc e => Exc e
      | Ok port =>
          Ok (MkConfig (getenv_str env "WEBSITE_URL") ci (getenv_str env "SMTP_SERVER") port
                (getenv_str env "EMAIL_USER") (getenv_str env "EMAIL_PWD")
                (getenv_str env "SENDER") (getenv_str env "RECEIVER")
                (getenv_str env "USER_AGENT"))
      end
  end.

(** [main()] from the environment: an exception of [Config.from_env()]
    escapes [main]. *)
Definition main_env (env : environ) : res main_outcome :=
  match from_env env with
  | Exc e => Exc e
  | Ok c => Ok (main c)
  end.

(** The string fields of [Config] and the variables [from_env] reads them
    from. *)
Definition string_vars : list (string * string) :=
  [("website_url", "WEBSITE_URL"); ("smtp_server", "SMTP_SERVER");
   ("email_user", "EMAIL_USER"); ("email_password", "EMAIL_PWD");
   ("sender", "SENDER"); ("receiver", "RECEIVER"); ("user_agent", "USER_AGENT")]%string.

(** ** Pages with their text changed *)

(** [str.upper] on ASCII. *)
Definition upper_char (c : ascii) : ascii :=
  let n := nat_of_ascii c in
  if (97 <=? n)%nat && (n <=? 122)%nat then ascii_of_nat (n - 32) else c.

Definition py_upper (t : str) : str := map upper_char t.

(** The page with [f] applied to every text node. *)
Fixpoint map_text (f : str -> str) (n : node) : node :=
  match n with
  | Text t => Text (f t)
  | Elem g cs => Elem g (map (map_text f) cs)
  end.

(** ** Observations on a run *)

Definition is_slept (ev : event) : bool :=
  match ev with Slept _ => true | _ => false end.

Definition is_loop_error (ev : event) : bool :=
  match ev with Log ERROR MsgLoopError => true | _ => false end.

Definition is_error_log (ev : event) : bool :=
  match ev with Log ERROR _ => true | _ => false end.

Definition not_interrupt {A} (r : res A) : bool :=
  match r with Exc KeyboardInterrupt => false | _ => true end.

(** No operator interrupt reaches the cycle: neither during the request,
    the parse, the SMTP exchange nor either sleep. *)
Definition no_interrupt (e : cycle_env) : bool :=
  not_interrupt (ce_get e)
  && match ce_get e with Ok r => not_interrupt (body r) | Exc _ => true end
  && not_interrupt (ce_session e) && not_interrupt (ce_quit e)
  && negb (ce_sleep_intr e) && negb (ce_recovery_intr e).

(** The characters [int()] skips around a number: [Py_ISSPACE], and U+0085
    and U+00A0, which become ' ' in a non-ASCII string. *)
Definition int_space (c : ascii) : bool :=
  py_isspace c || (nat_of_ascii c =? 133)%nat || (nat_of_ascii c =? 160)%nat.



(** A [.env] that only sets the site and leaves [EMAIL_USER] empty. *)
Definition env_partial : environ :=
  [("WEBSITE_URL"%string, py "https://shop.example"); ("EMAIL_USER"%string, [])].

(** A cycle without a match whose sleep is interrupted by Ctrl-C. *)
Definition env_stop : cycle_env :=
  MkEnv (ok_page (page "Welcome")) 1700001200 (Ok tt) (Ok tt) true false clock_1h clock_1h.

(** ** Sanity checks of the model *)

Example ex_script :
  detect keywords (page_text [Elem (py "script") [Text (py "sale")];
                              Elem (py "p") [Text (py "Welcome")]]) = [].
Proof. reflexivity. Qed.

Example ex_text :
  page_text [Elem (py "p") [Text (py "  Big "); Elem (py "b") [Text (py "SALE")]]] = py "big sale".
Proof. reflexivity. Qed.

Example ex_run :
  run cfg1 [env_at 1700000000 (ok_page (page "Big DISCOUNT")) (Ok tt);
            env_at 1700000001 (ok_page (page "Big DISCOUNT")) (Ok tt)] monitor_init
  = (Ok StillRunning, MState 1700000000
       [Log INFO MsgStart; Log INFO (MsgFound [py "discount"]); SmtpConnect; MailDelivered;
        Log INFO MsgMailSent; Slept 1; Log INFO (MsgFound [py "discount"]);
        Log INFO MsgCooldown; Slept 1]).
Proof. reflexivity. Qed.

(** ** Substrings *)


Lemma prefixb_spec w t : prefixb w t = true <-> exists r, t = w ++ r.
Proof.
  revert t; induction w as [|a w IH]; intros [|b t]; simpl.
  - split; eauto.
  - split; eauto.
  - split; [discriminate | intros [r H]; discriminate].
  - rewrite andb_true_iff, Ascii.eqb_eq, IH; split.
    + intros [-> [r ->]]; eauto.
    + intros [r H]; injection H as -> ->; eauto.
Qed.

Lemma infixb_spec w t : infixb w t = true <-> infix w t.
Proof.
  unfold infix; induction t as [|b t IH]; simpl; rewrite orb_true_iff, prefixb_spec.
  - split.
    + intros [[r H] | H]; [exists [], r; exact H | discriminate].
    + intros [[|x l] [r H]]; [left; eauto | discriminate].
  - rewrite IH; split.
    + intros [[r H] | [l [r H]]]; [exists [], r; exact H | exists (b :: l), r; rewrite H; reflexivity].
    + intros [[|x l] [r H]]; [left; eauto | right; injection H as -> ->; eauto].
Qed.

Lemma infix_trans u w t : infix u w -> infix w t -> infix u t.
Proof.
  intros [l1 [r1 ->]] [l2 [r2 ->]]; exists (l2 ++ l1), (r1 ++ r2).
  rewrite !app_assoc; reflexivity.
Qed.








Lemma is_space_lower c : is_space (lower_char c) = is_space c.
Proof. destruct c as [[] [] [] [] [] [] [] []]; reflexivity. Qed.






Lemma map_join (f : ascii -> ascii) sep ps :
  map f (join sep ps) = join (map f sep) (map (map f) ps).
Proof.
  induction ps as [|p ps IH]; simpl; [reflexivity|].
  destruct ps as [|q ps]; [reflexivity|]; rewrite !map_app, IH; reflexivity.
Qed.

(** ** Visible text *)

Lemma decompose_node_elem g cs :
  decompose_node (Elem g cs) = if removed_tag g then [] else [Elem g (decompose cs)].
Proof.
  simpl; destruct (removed_tag g); [reflexivity|].
  f_equal; f_equal; unfold decompose; induction cs as [|c cs IH]; simpl; congruence.
Qed.

Lemma node_strings_elem g cs :
  node_strings (Elem g cs) = if string_container g then [] else strings cs.
Proof.
  simpl; destruct (string_container g); [reflexivity|].
  unfold strings; induction cs as [|c cs IH]; simpl in *; congruence.
Qed.

Lemma decompose_cons n r : decompose (n :: r) = decompose_node n ++ decompose r.
Proof. reflexivity. Qed.


Lemma strings_cons n r : strings (n :: r) = node_strings n ++ strings r.
Proof. reflexivity. Qed.



(** ** Detection *)

Lemma detect_spec kws text kw : In kw (detect kws text) <-> In kw kws /\ infix kw text.
Proof. unfold detect; rewrite filter_In, infixb_spec; reflexivity. Qed.






(** ** How the monitor's operations act on the state *)

Lemma sent_count_app a b : sent_count (a ++ b) = (sent_count a + sent_count b)%nat.
Proof. unfold sent_count; rewrite filter_app, length_app; reflexivity. Qed.

Lemma check_discount_run kws g ls tr :
  check_discount kws g (MState ls tr) = (check_result kws g, MState ls (tr ++ check_log kws g)).
Proof.
  unfold check_result, check_log, check_discount, try_except, bind, lift, raise_for_status,
    ret, raise, log, emit.
  destruct g as [[st b]|x]; cbn.
  - destruct ((400 <=? st) && (st <? 600)); cbn.
    + rewrite ?app_nil_r; reflexivity.
    + destruct b as [ns|x]; cbn.
      * destruct (detect kws (page_text ns)); cbn; rewrite ?app_nil_r; reflexivity.
      * destruct x; cbn; rewrite ?app_nil_r; reflexivity.
  - destruct x; cbn; rewrite ?app_nil_r; reflexivity.
Qed.

Lemma check_log_quiet kws g :
  sent_count (check_log kws g) = 0%nat /\ filter is_connect (check_log kws g) = [].
Proof.
  unfold check_log, check_discount, try_except, bind, lift, raise_for_status, ret, raise, log, emit.
  destruct g as [[st b]|x]; cbn.
  - destruct ((400 <=? st) && (st <? 600)); cbn; [split; reflexivity|].
    destruct b as [ns|x]; cbn; [destruct (detect kws (page_text ns)); split; reflexivity|].
    destruct x; split; reflexivity.
  - destruct x; split; reflexivity.
Qed.

Lemma send_email_run session quit ls tr :
  send_email session quit (MState ls tr)
  = (send_result session quit, MState ls (tr ++ send_log session quit)).
Proof.
  unfold send_result, send_log, send_email, try_except, bind, lift, ret, raise, log, emit.
  destruct session as [[]|x]; [destruct quit as [[]|y]; [|destruct y] | destruct x];
    cbn; rewrite <- ?app_assoc; reflexivity.
Qed.

(** Every call of [send_email] opens an SMTP session, and the success line
    is logged exactly when it returns [True]. *)
Lemma send_log_shape session quit :
  filter is_connect (send_log session quit) = [SmtpConnect] /\
  sent_count (send_log session quit)
  = (if is_true_res (send_result session quit) then 1 else 0)%nat.
Proof.
  unfold send_result, send_log, send_email, try_except, bind, lift, ret, raise, log, emit.
  destruct session as [[]|x]; [destruct quit as [[]|y]; [|destruct y] | destruct x];
    split; reflexivity.
Qed.

Lemma sleep_run n k b ls tr :
  sleep n k b (MState ls tr)
  = match sleep_error n k with
    | Some x => (Exc x, MState ls tr)
    | None => if b then (Exc KeyboardInterrupt, MState ls tr)
              else (Ok tt, MState ls (tr ++ [Slept n]))
    end.
Proof. unfold sleep, raise, emit; destruct (sleep_error n k), b; reflexivity. Qed.

(** The recovery sleep [time.sleep(300)] can only fail on the deadline. *)
Lemma sleep_error_300 k :
  sleep_error 300 k = if pytime_max <? k + 300 * 10 ^ 9 then Some OSError else None.
Proof. reflexivity. Qed.

Lemma sleep_300_run k b ls tr :
  sleep 300 k b (MState ls tr)
  = if pytime_max <? k + 300 * 10 ^ 9 then (Exc OSError, MState ls tr)
    else if b then (Exc KeyboardInterrupt, MState ls tr)
    else (Ok tt, MState ls (tr ++ [Slept 300])).
Proof. rewrite sleep_run, sleep_error_300; destruct (pytime_max <? k + 300 * 10 ^ 9); reflexivity. Qed.


Lemma cycle_run c e ls tr :
  cycle c e (MState ls tr) =
  match check_result keywords (ce_get e) with
  | Exc x => (Exc x, MState ls (tr ++ check_log keywords (ce_get e)))
  | Ok false =>
      sleep (check_interval c) (ce_clock e) (ce_sleep_intr e)
        (MState ls ((tr ++ check_log keywords (ce_get e)) ++ [Log INFO MsgNoDiscount]))
  | Ok true =>
      if cooldown <? ce_now e - ls then
        match send_result (ce_session e) (ce_quit e) with
        | Exc x => (Exc x, MState ls ((tr ++ check_log keywords (ce_get e))
                                      ++ send_log (ce_session e) (ce_quit e)))
        | Ok ok =>
            sleep (check_interval c) (ce_clock e) (ce_sleep_intr e)
              (MState (if ok then ce_now e else ls)
                 ((tr ++ check_log keywords (ce_get e)) ++ send_log (ce_session e) (ce_quit e)))
        end
      else
        sleep (check_interval c) (ce_clock e) (ce_sleep_intr e)
          (MState ls ((tr ++ check_log keywords (ce_get e)) ++ [Log INFO MsgCooldown]))
  end.
Proof.
  unfold cycle; unfold bind at 1; rewrite check_discount_run.
  destruct (check_result keywords (ce_get e)) as [[|]|x]; [| |reflexivity].
  - unfold bind at 1 2, get_last_sent; cbn.
    destruct (cooldown <? ce_now e - ls); [|reflexivity].
    unfold bind at 1; rewrite send_email_run.
    destruct (send_result (ce_session e) (ce_quit e)) as [[|]|x]; reflexivity.
  - reflexivity.
Qed.

Lemma iteration_run c e s :
  iteration c e s =
  match cycle c e s with
  | (Ok _, s') => (Ok Continue, s')
  | (Exc KeyboardInterrupt, s') =>
      (Ok Break, MState (last_sent s') (trace s' ++ [Log INFO MsgInterrupted]))
  | (Exc _, s') =>
      match sleep 300 (ce_recovery_clock e) (ce_recovery_intr e)
              (MState (last_sent s') (trace s' ++ [Log ERROR MsgLoopError])) with
      | (Ok _, s'') => (Ok Continue, s'')
      | (Exc x, s'') => (Exc x, s'')
      end
  end.
Proof.
  unfold iteration, try_except, bind at 1.
  destruct (cycle c e s) as [[u|x] s']; [reflexivity|].
  destruct x; cbn; try reflexivity;
    rewrite sleep_300_run; unfold bind, ret;
    destruct (pytime_max <? ce_recovery_clock e + 300 * 10 ^ 9), (ce_recovery_intr e); reflexivity.
Qed.

Ltac sleep_cases :=
  repeat progress (
    rewrite ?sleep_300_run, ?sleep_run;
    repeat match goal with
           | |- context [match sleep_error ?n ?k with _ => _ end] =>
               destruct (sleep_error n k) as [[]|]
           | |- context [if pytime_max <? ?a then _ else _] => destruct (pytime_max <? a)
           | |- context [if ce_sleep_intr ?e then _ else _] => destruct (ce_sleep_intr e)
           | |- context [if ce_recovery_intr ?e then _ else _] => destruct (ce_recovery_intr e)
           end;
    cbn -[keywords check_log send_log sleep sent_count sleep_error pytime_max]).

(** One iteration either logs exactly one successful notification, sent at
    more than [cooldown] after [last_sent], and moves [last_sent] to the
    cycle's time, or logs none and leaves [last_sent] alone. *)
Lemma iteration_notify c e ls tr :
  exists d, trace (snd (iteration c e (MState ls tr))) = tr ++ d /\
    ((sent_count d = 1%nat /\ last_sent (snd (iteration c e (MState ls tr))) = ce_now e
      /\ cooldown < ce_now e - ls)
     \/ (sent_count d = 0%nat /\ last_sent (snd (iteration c e (MState ls tr))) = ls)).
Proof.
  destruct (check_log_quiet keywords (ce_get e)) as [Hq _].
  destruct (send_log_shape (ce_session e) (ce_quit e)) as [_ Hs].
  rewrite iteration_run, cycle_run.
  destruct (check_result keywords (ce_get e)) as [[|]|x].
  - destruct (cooldown <? ce_now e - ls) eqn:Hc.
    + apply Z.ltb_lt in Hc.
      destruct (send_result (ce_session e) (ce_quit e)) as [[|]|x]; cbn in Hs.
      * sleep_cases; try destruct x; eexists; (split; [rewrite <- ?app_assoc; reflexivity|]);
          left; rewrite ?sent_count_app, Hq, Hs; auto.
      * sleep_cases; try destruct x; eexists; (split; [rewrite <- ?app_assoc; reflexivity|]);
          right; rewrite ?sent_count_app, Hq, Hs; auto.
      * destruct x; sleep_cases; eexists; (split; [rewrite <- ?app_assoc; reflexivity|]);
          right; rewrite ?sent_count_app, Hq, Hs; auto.
    + sleep_cases; try destruct x; eexists; (split; [rewrite <- ?app_assoc; reflexivity|]);
        right; rewrite ?sent_count_app, Hq; auto.
  - sleep_cases; try destruct x; eexists; (split; [rewrite <- ?app_assoc; reflexivity|]);
      right; rewrite ?sent_count_app, Hq; auto.
  - destruct x; sleep_cases; eexists; (split; [rewrite <- ?app_assoc; reflexivity|]);
      right; rewrite ?sent_count_app, Hq; auto.
Qed.

Lemma notified_times_count c es s :
  sent_count (trace (snd (run_cycles c es s))) = (sent_count (trace s) + List.length (notified_times c es s))%nat.
Proof.
  revert s; induction es as [|e es IH]; intros [ls tr]; cbn -[iteration sent_count Nat.ltb]; [lia|].
  unfold bind at 1.
  destruct (iteration_notify c e ls tr) as [d [Htr Hcase]].
  destruct (iteration c e (MState ls tr)) as [r [ls' tr']]; cbn -[sent_count Nat.ltb] in Htr, Hcase |- *; subst tr'.
  rewrite sent_count_app.
  destruct Hcase as [[H1 _] | [H0 _]]; rewrite H1 || rewrite H0.
  - replace (sent_count tr <? sent_count tr + 1)%nat with true by (symmetry; apply Nat.ltb_lt; lia).
    destruct r as [[|]|x]; cbn -[sent_count]; rewrite ?IH; cbn [trace]; rewrite ?sent_count_app, ?H1; lia.
  - replace (sent_count tr <? sent_count tr + 0)%nat with false by (symmetry; apply Nat.ltb_ge; lia).
    destruct r as [[|]|x]; cbn -[sent_count]; rewrite ?IH; cbn [trace]; rewrite ?sent_count_app, ?H0; lia.
Qed.

Lemma notified_times_gap c es s :
  Forall (fun t => cooldown < t - last_sent s) (notified_times c es s) /\
  ForallOrdPairs (fun t1 t2 => cooldown < t2 - t1) (notified_times c es s).
Proof.
  revert s; induction es as [|e es IH]; intros [ls tr]; cbn -[iteration sent_count Nat.ltb];
    [split; constructor|].
  destruct (iteration_notify c e ls tr) as [d [Htr Hcase]].
  destruct (iteration c e (MState ls tr)) as [r [ls' tr']]; cbn -[sent_count Nat.ltb] in Htr, Hcase |- *; subst tr'.
  rewrite sent_count_app.
  assert (Hrest : Forall (fun t => cooldown < t - ls') (match r with Ok Continue => notified_times c es (MState ls' (tr ++ d)) | _ => [] end) /\
                  ForallOrdPairs (fun t1 t2 => cooldown < t2 - t1) (match r with Ok Continue => notified_times c es (MState ls' (tr ++ d)) | _ => [] end)).
  { destruct r as [[|]|x]; [apply (IH (MState ls' (tr ++ d))) | split; constructor ..]. }
  destruct Hrest as [Hf Ho].
  destruct Hcase as [[H1 [-> Hgap]] | [H0 ->]].
  - rewrite H1; replace (sent_count tr <? sent_count tr + 1)%nat with true by (symmetry; apply Nat.ltb_lt; lia).
    cbn; split.
    + constructor; [exact Hgap|].
      eapply Forall_impl; [|exact Hf]; cbn; unfold cooldown in *; lia.
    + constructor; assumption.
  - rewrite H0; replace (sent_count tr <? sent_count tr + 0)%nat with false by (symmetry; apply Nat.ltb_ge; lia).
    cbn; split; assumption.
Qed.

Lemma iteration_summary c e ls tr :
  last_sent (snd (iteration c e (MState ls tr)))
  = (if attempts e ls && is_true_res (send_result (ce_session e) (ce_quit e)) then ce_now e else ls)
  /\ filter is_connect (trace (snd (iteration c e (MState ls tr))))
     = filter is_connect tr ++ (if attempts e ls then [SmtpConnect] else []).
Proof.
  destruct (check_log_quiet keywords (ce_get e)) as [_ Hq].
  destruct (send_log_shape (ce_session e) (ce_quit e)) as [Hs _].
  unfold attempts; rewrite iteration_run, cycle_run.
  destruct (check_result keywords (ce_get e)) as [[|]|x]; cbn [is_true_res andb].
  - destruct (cooldown <? ce_now e - ls); cbn [andb].
    + destruct (send_result (ce_session e) (ce_quit e)) as [[|]|x]; cbn [is_true_res andb];
        [| |destruct x]; sleep_cases; try destruct x;
        (split; [reflexivity | rewrite ?filter_app, Hq, Hs; cbn [filter is_connect]; rewrite ?app_nil_r; reflexivity]).
    + sleep_cases; try destruct x; (split; [reflexivity | rewrite ?filter_app, Hq; cbn [filter is_connect]; rewrite ?app_nil_r; reflexivity]).
  - sleep_cases; try destruct x; (split; [reflexivity | rewrite ?filter_app, Hq; cbn [filter is_connect]; rewrite ?app_nil_r; reflexivity]).
  - destruct x; sleep_cases; (split; [reflexivity | rewrite ?filter_app, Hq; cbn [filter is_connect]; rewrite ?app_nil_r; reflexivity]).
Qed.

(** Cycles that detect no match leave [last_sent] unchanged. *)
Lemma run_cycles_no_match c es s s' :
  Forall (fun e => check_result keywords (ce_get e) <> Ok true) es ->
  run_cycles c es s = (Ok StillRunning, s') -> last_sent s' = last_sent s.
Proof.
  revert s; induction es as [|e es IH]; intros [ls tr] Hall Hrun; cbn in Hrun.
  - unfold ret in Hrun; injection Hrun as <-; reflexivity.
  - inversion Hall as [|? ? Hne Hrest]; subst.
    destruct (iteration_summary c e ls tr) as [Hls _].
    unfold bind in Hrun; destruct (iteration c e (MState ls tr)) as [[[|]|x] s1] eqn:E;
      try discriminate.
    rewrite (IH s1 Hrest Hrun); cbn in Hls |- *; rewrite Hls; unfold attempts.
    destruct (check_result keywords (ce_get e)) as [[|]|x]; [contradiction | reflexivity ..].
Qed.

Lemma check_page kws st ns :
  (400 <=? st) && (st <? 600) = false ->
  check_discount kws (Ok (MkResponse st (Ok ns))) =
  fun s => match detect kws (page_text ns) with
           | [] => (Ok false, s)
           | found => (Ok true, MState (last_sent s) (trace s ++ [Log INFO (MsgFound found)]))
           end.
Proof.
  intros H; unfold check_discount, try_except, bind, lift, raise_for_status, ret, log, emit; cbn.
  rewrite H; cbn; destruct (detect kws (page_text ns)); reflexivity.
Qed.


Lemma validate_in c f :
  In (FieldEmpty f) (validate c) <-> exists v, In (f, v) (config_items c) /\ falsy v = true.
Proof.
  unfold validate; rewrite in_map_iff; split.
  - intros [[f' v] [Heq Hin]]; injection Heq as ->; apply filter_In in Hin; eauto.
  - intros [v [Hin Hf]]; exists (f, v); split; [reflexivity | apply filter_In; auto].
Qed.




(** ** Claims: detection *)




(** C7 (counterexample): two pages with different sets of matched keywords
    get the same result from [check_discount]. *)
Lemma check_discount_forgets_keywords :
  detect keywords (page_text (page "Big SALE")) <> detect keywords (page_text (page "COUPON inside")) /\
  check_result keywords (ok_page (page "Big SALE")) = check_result keywords (ok_page (page "COUPON inside")).
Proof. split; [vm_compute; discriminate | reflexivity]. Qed.

(** C7 (amended): on a fetched page, [check_discount] computes the list of
    every keyword contained in the page text, writes it to the log when it
    is non-empty, and returns only whether it is non-empty. *)
Theorem check_discount_returns_bool (st : Z) (ns : list node) (s : mstate) :
  (400 <=? st) && (st <? 600) = false ->
  (forall kw, In kw (detect keywords (page_text ns)) <-> In kw keywords /\ infix kw (page_text ns)) /\
  check_discount keywords (Ok (MkResponse st (Ok ns))) s =
    match detect keywords (page_text ns) with
    | [] => (Ok false, s)
    | found => (Ok true, MState (last_sent s) (trace s ++ [Log INFO (MsgFound found)]))
    end.
Proof.
  intros Hst; split; [intros kw; apply detect_spec|].
  rewrite (check_page _ _ _ Hst); reflexivity.
Qed.

Lemma check_discount_returns_bool_witness :
  (400 <=? 200) && (200 <? 600) = false /\
  check_discount keywords (ok_page (page "Big SALE")) monitor_init
  = (Ok true, MState 0 [Log INFO (MsgFound [py "sale"])]).
Proof.
  split; [reflexivity|]; unfold ok_page.
  rewrite (proj2 (check_discount_returns_bool 200 (page "Big SALE") monitor_init eq_refl)).
  reflexivity.
Defined.



(** ** Claims: configuration *)



(** C9: the integer fields are validated by truthiness too: a configuration
    with [check_interval = 0] or [smtp_port = 0] fails validation and the
    loop is not started, whatever the string fields hold. *)
Theorem zero_int_fields_fail_validation (c : Config) :
  check_interval c = 0 \/ smtp_port c = 0 ->
  validate c <> [] /\ main c <> StartedLoop /\
  (check_interval c = 0 -> In (FieldEmpty "check_interval") (validate c)) /\
  (smtp_port c = 0 -> In (FieldEmpty "smtp_port") (validate c)).
Proof.
  assert (Hci : check_interval c = 0 -> In (FieldEmpty "check_interval") (validate c)).
  { intros H; apply validate_in; exists (PInt 0); unfold config_items; rewrite H; cbn; split; [tauto | reflexivity]. }
  assert (Hsp : smtp_port c = 0 -> In (FieldEmpty "smtp_port") (validate c)).
  { intros H; apply validate_in; exists (PInt 0); unfold config_items; rewrite H; cbn; split; [tauto | reflexivity]. }
  intros Hz.
  assert (Hne : validate c <> []).
  { intros E; destruct Hz as [Hz | Hz]; [apply Hci in Hz | apply Hsp in Hz]; rewrite E in Hz; contradiction. }
  split; [exact Hne|]; split; [|split; assumption].
  unfold main; destruct (validate c); [contradiction | discriminate].
Qed.

Lemma zero_int_fields_fail_validation_witness :
  (check_interval cfg_zero_interval = 0 \/ smtp_port cfg_zero_interval = 0) /\
  validate cfg_zero_interval <> [] /\ main cfg_zero_interval <> StartedLoop.
Proof.
  assert (H : check_interval cfg_zero_interval = 0 \/ smtp_port cfg_zero_interval = 0)
    by (left; reflexivity).
  destruct (zero_int_fields_fail_validation cfg_zero_interval H) as [H1 [H2 _]].
  exact (conj H (conj H1 H2)).
Defined.

(** ** Claims: the monitor loop *)

Lemma sleep_error_exc n k x : sleep_error n k = Some x -> x <> KeyboardInterrupt.
Proof.
  unfold sleep_error.
  destruct ((n * 10 ^ 9 <? pytime_min) || (pytime_max <? n * 10 ^ 9));
    [intros H; injection H as <-; discriminate|].
  destruct (n <? 0); [intros H; injection H as <-; discriminate|].
  destruct (pytime_max <? k + n * 10 ^ 9); [intros H; injection H as <-; discriminate | discriminate].
Qed.

(** A matching cycle whose SMTP session succeeds and whose sleep is not
    interrupted sends one notification exactly when the cooldown has
    elapsed, and then moves [last_sent] to the cycle's time, whatever
    [time.sleep] does; it goes on to the next cycle unless its recovery
    sleep is interrupted or fails. *)
Lemma iteration_match_sent c e ls tr :
  check_result keywords (ce_get e) = Ok true ->
  ce_session e = Ok tt -> ce_quit e = Ok tt -> ce_sleep_intr e = false ->
  exists d, trace (snd (iteration c e (MState ls tr))) = tr ++ d /\
    sent_count d = (if cooldown <? ce_now e - ls then 1%nat else 0%nat) /\
    last_sent (snd (iteration c e (MState ls tr)))
      = (if cooldown <? ce_now e - ls then ce_now e else ls) /\
    (ce_recovery_intr e = false -> ce_recovery_clock e + 300 * 10 ^ 9 <= pytime_max ->
     fst (iteration c e (MState ls tr)) = Ok Continue).
Proof.
  intros Hc Hs Hq Hi.
  assert (Hsr : send_result (ce_session e) (ce_quit e) = Ok true) by (rewrite Hs, Hq; reflexivity).
  assert (Hsl : send_log (ce_session e) (ce_quit e) = [SmtpConnect; MailDelivered; Log INFO MsgMailSent])
    by (rewrite Hs, Hq; reflexivity).
  destruct (check_log_quiet keywords (ce_get e)) as [Hql _].
  rewrite iteration_run, cycle_run, Hc.
  destruct (cooldown <? ce_now e - ls); [rewrite Hsr, Hsl|]; rewrite sleep_run;
    destruct (sleep_error (check_interval c) (ce_clock e)) as [x|] eqn:Ese;
    try destruct x; try (exfalso; exact (sleep_error_exc _ _ _ Ese eq_refl));
    cbn -[keywords check_log sleep sent_count pytime_max]; rewrite ?sleep_300_run, ?Hi;
    destruct (pytime_max <? ce_recovery_clock e + 300 * 10 ^ 9) eqn:Hr;
    destruct (ce_recovery_intr e); cbn -[keywords check_log sent_count pytime_max];
    eexists; (split; [rewrite <- ?app_assoc; reflexivity|]);
    (split; [rewrite ?sent_count_app, Hql; reflexivity|]); (split; [reflexivity|]);
    intros HH1 HH2; try reflexivity; try discriminate HH1; apply Z.ltb_lt in Hr; lia.
Qed.

(** C1 (counterexample): two matches one second apart whose SMTP sessions
    both fail: two sessions are opened and no notification is sent. *)
Lemma cooldown_failed_sends :
  let es := [MkEnv sale_page 1700000000 (Exc SMTPException) (Ok tt) false false clock_1h clock_1h;
             MkEnv sale_page 1700000001 (Exc SMTPException) (Ok tt) false false clock_1h clock_1h] in
  let tr := trace (snd (run cfg1 es monitor_init)) in
  sent_count tr = 0%nat /\ filter is_connect tr = [SmtpConnect; SmtpConnect] /\
  ~ In MailDelivered tr.
Proof. vm_compute; split; [reflexivity | split; [reflexivity | intuition discriminate]]. Qed.

(** C1 (amended): counting the notifications [send_email] reports
    successful, any two of them in a run are more than [cooldown] seconds
    apart (so at most one per cooldown window however many cycles match);
    and from the initial state, with successful sends and a first match at
    a time after [cooldown], a second match less than (or exactly)
    [cooldown] later sends no second notification, one more than
    [cooldown] later does, whatever [check_interval] is, provided the
    recovery sleep of the first cycle cannot fail. *)
Theorem cooldown_notifications :
  (forall c es,
     sent_count (trace (snd (run c es monitor_init)))
       = List.length (notified_times c es (MState 0 [Log INFO MsgStart])) /\
     ForallOrdPairs (fun t1 t2 => cooldown < t2 - t1)
       (notified_times c es (MState 0 [Log INFO MsgStart]))) /\
  (forall c g1 g2 t1 t2 k1 r1 k2 r2,
     check_result keywords g1 = Ok true -> check_result keywords g2 = Ok true ->
     cooldown < t1 -> r1 + 300 * 10 ^ 9 <= pytime_max ->
     sent_count (trace (snd (run c [MkEnv g1 t1 (Ok tt) (Ok tt) false false k1 r1;
                                    MkEnv g2 t2 (Ok tt) (Ok tt) false false k2 r2] monitor_init)))
     = if cooldown <? t2 - t1 then 2%nat else 1%nat).
Proof.
  split.
  - intros c es; split.
    + unfold run, bind at 1, log, emit; cbn [monitor_init last_sent trace app].
      rewrite notified_times_count; reflexivity.
    + apply notified_times_gap.
  - intros c g1 g2 t1 t2 k1 r1 k2 r2 H1 H2 Ht1 Hr1.
    unfold run, bind at 1, log, emit; cbn [monitor_init last_sent trace app run_cycles].
    unfold bind at 1.
    destruct (iteration_match_sent c (MkEnv g1 t1 (Ok tt) (Ok tt) false false k1 r1) 0
                [Log INFO MsgStart] H1 eq_refl eq_refl eq_refl) as (d1 & T1 & S1 & L1 & C1).
    cbn [ce_now ce_recovery_intr ce_recovery_clock] in T1, S1, L1, C1.
    replace (cooldown <? t1 - 0) with true in S1, L1 by (symmetry; apply Z.ltb_lt; lia).
    specialize (C1 eq_refl Hr1).
    destruct (iteration c _ (MState 0 [Log INFO MsgStart])) as [x1 [ls1 tr1]];
      cbn [fst snd last_sent trace] in T1, L1, C1; subst x1 ls1 tr1.
    cbn [run_cycles]; unfold bind at 1.
    destruct (iteration_match_sent c (MkEnv g2 t2 (Ok tt) (Ok tt) false false k2 r2) t1
                ([Log INFO MsgStart] ++ d1) H2 eq_refl eq_refl eq_refl) as (d2 & T2 & S2 & _ & _).
    cbn [ce_now] in T2, S2.
    destruct (iteration c _ (MState t1 ([Log INFO MsgStart] ++ d1))) as [x2 s2];
      cbn [snd] in T2.
    destruct x2 as [[|]|x]; cbn [run_cycles]; unfold ret; cbn [snd];
      rewrite T2, !sent_count_app, S1, S2; destruct (cooldown <? t2 - t1); reflexivity.
Qed.

Lemma cooldown_notifications_witness :
  check_result keywords sale_page = Ok true /\
  sent_count (trace (snd (run cfg1 [MkEnv sale_page 1700000000 (Ok tt) (Ok tt) false false clock_1h clock_1h;
                                     MkEnv sale_page 1700000001 (Ok tt) (Ok tt) false false clock_1h clock_1h]
                              monitor_init)))
  = 1%nat.
Proof.
  assert (H : check_result keywords sale_page = Ok true) by reflexivity.
  split; [exact H|].
  rewrite (proj2 cooldown_notifications cfg1 sale_page sale_page 1700000000 1700000001
             clock_1h clock_1h clock_1h clock_1h H H);
    [reflexivity | unfold cooldown; lia | apply Z.leb_le; vm_compute; reflexivity].
Defined.

(** C3: [last_sent] changes only when a match passes the cooldown check and
    [send_email] reports success, and then to the cycle's time; after a
    failed send it is unchanged, so, through any cycles without a match,
    the next matching cycle (at a time not earlier) calls [send_email]
    again. *)
Theorem failed_send_keeps_last_sent :
  (forall c e ls tr,
     last_sent (snd (iteration c e (MState ls tr)))
     = if is_true_res (check_result keywords (ce_get e)) && (cooldown <? ce_now e - ls)
          && is_true_res (send_result (ce_session e) (ce_quit e))
       then ce_now e else ls) /\
  (forall c e1 mid e2 ls tr s,
     check_result keywords (ce_get e1) = Ok true ->
     cooldown < ce_now e1 - ls ->
     send_result (ce_session e1) (ce_quit e1) = Ok false ->
     Forall (fun e => check_result keywords (ce_get e) <> Ok true) mid ->
     check_result keywords (ce_get e2) = Ok true ->
     ce_now e1 <= ce_now e2 ->
     run_cycles c (e1 :: mid) (MState ls tr) = (Ok StillRunning, s) ->
     last_sent s = ls /\
     filter is_connect (trace (snd (iteration c e2 s))) = filter is_connect (trace s) ++ [SmtpConnect]).
Proof.
  split; [intros c e ls tr; apply (iteration_summary c e ls tr)|].
  intros c e1 mid e2 ls tr s Hc1 Hcool Hsend Hmid Hc2 Hle Hrun.
  cbn [run_cycles] in Hrun; unfold bind at 1 in Hrun.
  destruct (iteration_summary c e1 ls tr) as [Hls1 _].
  unfold attempts in Hls1; rewrite Hc1, Hsend in Hls1; cbn [is_true_res andb] in Hls1.
  rewrite andb_false_r in Hls1.
  destruct (iteration c e1 (MState ls tr)) as [[[|]|x] s1] eqn:E; try discriminate.
  cbn in Hls1.
  assert (Hs : last_sent s = ls) by (rewrite (run_cycles_no_match c mid s1 s Hmid Hrun); exact Hls1).
  split; [exact Hs|].
  destruct s as [ls' tr']; cbn in Hs; subst ls'.
  destruct (iteration_summary c e2 ls tr') as [_ Hconn]; rewrite Hconn.
  unfold attempts; rewrite Hc2.
  replace (cooldown <? ce_now e2 - ls) with true by (symmetry; apply Z.ltb_lt; lia).
  reflexivity.
Qed.

Lemma failed_send_keeps_last_sent_witness :
  let s := snd (run_cycles cfg1 [env_send_fails; env_quiet] monitor_init) in
  run_cycles cfg1 [env_send_fails; env_quiet] monitor_init = (Ok StillRunning, s) /\
  last_sent s = 0 /\
  filter is_connect (trace (snd (iteration cfg1 env_retry s))) = filter is_connect (trace s) ++ [SmtpConnect].
Proof.
  intros s; split; [reflexivity|].
  apply (proj2 failed_send_keeps_last_sent cfg1 env_send_fails [env_quiet] env_retry 0 []);
    [reflexivity | vm_compute; reflexivity | reflexivity
    | constructor; [discriminate | constructor] | reflexivity | cbn; lia | reflexivity].
Defined.

(** C4: in the initial cooldown state ([last_sent = 0]) a matching cycle
    calls [send_email] exactly when the wall-clock time exceeds [cooldown]
    seconds since the epoch. *)
Theorem first_match_notifies (c : Config) (e : cycle_env) (tr : list event) :
  check_result keywords (ce_get e) = Ok true ->
  (filter is_connect (trace (snd (iteration c e (MState 0 tr))))
     = filter is_connect tr ++ [SmtpConnect] <-> cooldown < ce_now e).
Proof.
  intros Hc; destruct (iteration_summary c e 0 tr) as [_ ->].
  unfold attempts; rewrite Hc; cbn [is_true_res andb]; rewrite Z.sub_0_r.
  destruct (cooldown <? ce_now e) eqn:E.
  - apply Z.ltb_lt in E; split; [intros _; exact E | reflexivity].
  - apply Z.ltb_ge in E; split; [|lia].
    intros H; apply app_inv_head in H; discriminate.
Qed.

Lemma first_match_notifies_witness :
  check_result keywords (ce_get env_retry) = Ok true /\
  filter is_connect (trace (snd (iteration cfg1 env_retry monitor_init))) = [SmtpConnect].
Proof.
  assert (H : check_result keywords (ce_get env_retry) = Ok true) by reflexivity.
  split; [exact H|].
  apply (proj2 (first_match_notifies cfg1 env_retry [] H)); cbn; unfold cooldown; lia.
Defined.





(** C8: with [check_interval = -1], which [validate] accepts, the first
    cycle without a match calls [time.sleep(-1)], which raises
    [ValueError]; the loop logs it and enters [time.sleep(300)] outside the
    [try], and an operator interrupt there leaves [run] with
    [KeyboardInterrupt] and no shutdown log line ("用户中断监控"). *)
Theorem recovery_sleep_interrupt_escapes :
  validate cfg_neg = [] /\ main cfg_neg = StartedLoop /\
  run cfg_neg [MkEnv (ok_page (page "Welcome")) 1700000000 (Ok tt) (Ok tt) false true
                 clock_1h clock_1h] monitor_init
  = (Exc KeyboardInterrupt,
     MState 0 [Log INFO MsgStart; Log INFO MsgNoDiscount; Log ERROR MsgLoopError]).
Proof. split; [|split]; vm_compute; reflexivity. Qed.

(** ** Further properties: [int()] and [str()] *)

Lemma digit_char_ok d :
  0 <= d < 10 -> is_digit (digit_char d) = true /\ digit_val (digit_char d) = d.
Proof.
  intros H.
  assert (d = 0 \/ d = 1 \/ d = 2 \/ d = 3 \/ d = 4 \/ d = 5 \/ d = 6 \/ d = 7 \/ d = 8 \/ d = 9)
    as Hd by lia.
  repeat destruct Hd as [-> | Hd]; try (subst d); split; reflexivity.
Qed.

Lemma dec_body_app t r acc k :
  Forall (fun c => is_digit c = true) t ->
  dec_body (t ++ r) acc k = dec_body r (dval acc t) (k + List.length t).
Proof.
  intros Ht; revert acc k; induction Ht as [|c t Hc Ht IH]; intros acc k.
  - rewrite Nat.add_0_r; reflexivity.
  - cbn [app dec_body]; rewrite Hc, IH; cbn [List.length]; rewrite Nat.add_succ_r; reflexivity.
Qed.

Lemma digits_aux_spec fuel : forall n acc,
  0 <= n -> n < 2 ^ Z.of_nat fuel -> (0 < fuel)%nat ->
  exists ds, digits_aux fuel n acc = ds ++ acc /\ ds <> [] /\
    Forall (fun c => is_digit c = true) ds /\
    forall a, dval a ds = a * 10 ^ Z.of_nat (List.length ds) + n.
Proof.
  induction fuel as [|f IH]; intros n acc H0 H1 Hf; [lia|].
  cbn [digits_aux]; destruct (n <? 10) eqn:E.
  - apply Z.ltb_lt in E; destruct (digit_char_ok n) as [Hd Hv]; [lia|].
    exists [digit_char n]; split; [reflexivity|]; split; [discriminate|].
    split; [constructor; auto|].
    intros a; unfold dval; cbn [fold_left List.length]; rewrite Hv; cbn; lia.
  - apply Z.ltb_ge in E.
    assert (Hq : 0 < n / 10) by (apply Z.div_str_pos; lia).
    assert (Hq' : n / 10 < 2 ^ Z.of_nat f).
    { rewrite Nat2Z.inj_succ, Z.pow_succ_r in H1 by lia.
      apply Z.div_lt_upper_bound; [lia|].
      pose proof (Z.pow_pos_nonneg 2 (Z.of_nat f)); lia. }
    assert (Hf' : (0 < f)%nat) by (destruct f; [cbn in Hq'; lia | lia]).
    destruct (digit_char_ok (n mod 10)) as [Hd Hv]; [apply Z.mod_pos_bound; lia|].
    destruct (IH (n / 10) (digit_char (n mod 10) :: acc)) as (ds & Heq & Hne & Hall & Hval);
      [lia | exact Hq' | exact Hf' |].
    exists (ds ++ [digit_char (n mod 10)]); split; [rewrite Heq, <- app_assoc; reflexivity|].
    split; [intros H; apply app_eq_nil in H as [_ H]; discriminate|].
    split; [apply Forall_app; auto|].
    intros a; unfold dval in *; rewrite fold_left_app, Hval; cbn [fold_left]; rewrite Hv.
    rewrite length_app, Nat2Z.inj_add, Z.pow_add_r by lia; cbn [List.length Z.of_nat].
    rewrite (Z.div_mod n 10) at 3 by lia; change (10 ^ Z.of_nat 1) with 10; ring.
Qed.

Lemma nat_digits_spec n :
  0 <= n ->
  nat_digits n <> [] /\ Forall (fun c => is_digit c = true) (nat_digits n) /\
  dval 0 (nat_digits n) = n.
Proof.
  intros Hn; unfold nat_digits.
  destruct (digits_aux_spec (S (Z.to_nat (Z.log2 n))) n []) as (ds & Heq & Hne & Hall & Hval);
    [exact Hn | | lia |].
  - rewrite Nat2Z.inj_succ, Z2Nat.id by apply Z.log2_nonneg.
    destruct (Z.eq_dec n 0) as [-> | Hn0]; [reflexivity|].
    apply Z.log2_spec; lia.
  - rewrite Heq, app_nil_r; split; [exact Hne|]; split; [exact Hall|]; rewrite Hval; lia.
Qed.

Lemma digit_int_props c :
  is_digit c = true ->
  py_isspace c = false /\ (nat_of_ascii c <? 127)%nat = true /\
  Ascii.eqb c "-" = false /\ Ascii.eqb c "+" = false.
Proof.
  destruct c as [[] [] [] [] [] [] [] []]; intros H; try discriminate H; repeat split.
Qed.

Lemma digits_int_props t :
  Forall (fun c => is_digit c = true) t ->
  Forall (fun c => py_isspace c = false) t /\ Forall (fun c => (nat_of_ascii c <? 127)%nat = true) t.
Proof.
  intros H; split; (eapply Forall_impl; [|exact H]); intros c Hc; apply (digit_int_props c Hc).
Qed.

(** Per character, on the 256 code points: what [to_ascii] makes of the
    characters [int()] skips. *)
Lemma int_space_conv c :
  int_space c = true ->
  ((nat_of_ascii c <? 128)%nat = true -> py_isspace c = true) /\
  exists c', py_isspace c' = true /\ forall t, to_ascii_loop (c :: t) = c' :: to_ascii_loop t.
Proof.
  destruct c as [[] [] [] [] [] [] [] []]; intros H; try (vm_compute in H; discriminate H);
    (split; [intros Hl; first [reflexivity | vm_compute in Hl; discriminate Hl]|]);
    eexists; (split; [|intros t; reflexivity]); reflexivity.
Qed.


Lemma to_ascii_loop_spaces ws t :
  Forall (fun c => int_space c = true) ws ->
  exists ws', Forall (fun c => py_isspace c = true) ws' /\
              to_ascii_loop (ws ++ t) = ws' ++ to_ascii_loop t.
Proof.
  induction 1 as [|c ws Hc _ (ws' & Hw & IH)]; [exists []; split; [constructor | reflexivity]|].
  destruct (int_space_conv c Hc) as [_ (c' & Hc' & E)].
  exists (c' :: ws'); split; [constructor; assumption|].
  cbn [app]; rewrite E, IH; reflexivity.
Qed.

Lemma to_ascii_loop_keep u t :
  Forall (fun c => (nat_of_ascii c <? 127)%nat = true) u ->
  to_ascii_loop (u ++ t) = u ++ to_ascii_loop t.
Proof.
  induction 1 as [|c u Hc _ IH]; [reflexivity|].
  cbn [app to_ascii_loop]; rewrite Hc, IH; reflexivity.
Qed.

(** The non-ASCII path of [int()] turns whitespace U+0085 and U+00A0
    into ' ' and leaves ASCII characters below U+007F alone. *)
Lemma to_ascii_pad ws1 t ws2 :
  Forall (fun c => int_space c = true) ws1 -> Forall (fun c => int_space c = true) ws2 ->
  Forall (fun c => (nat_of_ascii c <? 127)%nat = true) t ->
  exists ws1' ws2', Forall (fun c => py_isspace c = true) ws1' /\
    Forall (fun c => py_isspace c = true) ws2' /\ to_ascii (ws1 ++ t ++ ws2) = ws1' ++ t ++ ws2'.
Proof.
  intros H1 H2 Ht; unfold to_ascii.
  destruct (forallb (fun c => nat_of_ascii c <? 128)%nat (ws1 ++ t ++ ws2)) eqn:E.
  - exists ws1, ws2; rewrite forallb_forall in E.
    split; [|split; [|reflexivity]]; rewrite Forall_forall in *; intros c Hin.
    + apply (int_space_conv c (H1 c Hin)), E, in_or_app; left; exact Hin.
    + apply (int_space_conv c (H2 c Hin)), E, in_or_app; right; apply in_or_app; right; exact Hin.
  - destruct (to_ascii_loop_spaces ws1 (t ++ ws2) H1) as (w1 & Hw1 & ->).
    rewrite to_ascii_loop_keep by exact Ht.
    destruct (to_ascii_loop_spaces ws2 [] H2) as (w2 & Hw2 & E2).
    cbn [to_ascii_loop] in E2; rewrite !app_nil_r in E2; rewrite E2.
    exists w1, w2; split; [exact Hw1 | split; [exact Hw2 | reflexivity]].
Qed.

Lemma int_lstrip_spaces ws t :
  Forall (fun c => py_isspace c = true) ws -> int_lstrip (ws ++ t) = int_lstrip t.
Proof. induction 1 as [|c ws Hc _ IH]; [reflexivity|]; cbn; rewrite Hc; exact IH. Qed.

Lemma int_lstrip_keep u x :
  Forall (fun c => py_isspace c = false) u -> u <> [] -> int_lstrip (u ++ x) = u ++ x.
Proof.
  intros Hu Hne; destruct u as [|c u]; [contradiction|].
  inversion Hu as [|? ? Hc _]; cbn; rewrite Hc; reflexivity.
Qed.

(** The stripping in [PyLong_FromString] removes exactly the whitespace
    around a text that has none. *)
Lemma int_strip_pad ws1 t ws2 :
  Forall (fun c => py_isspace c = true) ws1 -> Forall (fun c => py_isspace c = true) ws2 ->
  Forall (fun c => py_isspace c = false) t ->
  int_strip (ws1 ++ t ++ ws2) = t.
Proof.
  intros H1 H2 Ht; unfold int_strip; rewrite int_lstrip_spaces by exact H1.
  destruct t as [|c t'].
  - cbn [app]; rewrite <- (app_nil_r ws2), int_lstrip_spaces by exact H2; reflexivity.
  - rewrite int_lstrip_keep by (exact Ht || discriminate).
    rewrite rev_app_distr, int_lstrip_spaces by (apply Forall_rev; exact H2).
    rewrite <- (app_nil_r (rev (c :: t'))), int_lstrip_keep.
    + rewrite app_nil_r, rev_involutive; reflexivity.
    + apply Forall_rev; exact Ht.
    + intros H; apply (f_equal (@List.length ascii)) in H; rewrite length_rev in H; discriminate H.
Qed.

Lemma dec_body_digits l :
  Forall (fun c => is_digit c = true) l -> dec_body l 0 0 = Some (dval 0 l, List.length l).
Proof. intros H; rewrite <- (app_nil_r l) at 1; rewrite dec_body_app by exact H; reflexivity. Qed.

Lemma py_int_of_str_int (n : Z) (ws1 ws2 : str) :
  Forall (fun c => int_space c = true) ws1 -> Forall (fun c => int_space c = true) ws2 ->
  (List.length (nat_digits (Z.abs n)) <= max_str_digits)%nat ->
  py_int (PStr (ws1 ++ py_str_int n ++ ws2)) = Ok n.
Proof.
  intros H1 H2 Hlen; unfold py_str_int.
  destruct (n <? 0) eqn:En; [apply Z.ltb_lt in En | apply Z.ltb_ge in En].
  - destruct (nat_digits_spec (- n)) as (Hne & Hall & Hval); [lia|].
    replace (Z.abs n) with (- n) in Hlen by lia.
    destruct (nat_digits (- n)) as [|d r] eqn:Eds; [contradiction|].
    assert (Hdd : is_digit d = true) by (inversion Hall; assumption).
    destruct (digits_int_props _ Hall) as [Hsp Hlo].
    destruct (to_ascii_pad ws1 ("-"%char :: d :: r) ws2 H1 H2) as (w1 & w2 & Hw1 & Hw2 & Ea);
      [constructor; [reflexivity | exact Hlo]|].
    unfold py_int; rewrite Ea, int_strip_pad by (assumption || (constructor; [reflexivity | exact Hsp])).
    cbn [Ascii.eqb Bool.eqb]; rewrite Hdd, dec_body_digits by exact Hall.
    replace (max_str_digits <? List.length (d :: r))%nat with false
      by (symmetry; apply Nat.ltb_ge; exact Hlen).
    rewrite Hval; f_equal; lia.
  - destruct (nat_digits_spec n) as (Hne & Hall & Hval); [lia|].
    replace (Z.abs n) with n in Hlen by lia.
    destruct (nat_digits n) as [|d r] eqn:Eds; [contradiction|].
    assert (Hdd : is_digit d = true) by (inversion Hall; assumption).
    destruct (digit_int_props d Hdd) as (_ & _ & Hm & Hp).
    destruct (digits_int_props _ Hall) as [Hsp Hlo].
    destruct (to_ascii_pad ws1 (d :: r) ws2 H1 H2 Hlo) as (w1 & w2 & Hw1 & Hw2 & Ea).
    unfold py_int; rewrite Ea, int_strip_pad by assumption.
    rewrite Hm, Hp, Hdd, dec_body_digits by exact Hall.
    replace (max_str_digits <? List.length (d :: r))%nat with false
      by (symmetry; apply Nat.ltb_ge; exact Hlen).
    rewrite Hval; reflexivity.
Qed.

(** X1: [int(str(n)) == n], also with whitespace around the digits (the
    characters [int()] skips: \t \n \v \f \r, ' ', U+0085 and U+00A0),
    for every integer of at most 4300 digits. *)
Theorem py_int_str_int (n : Z) (ws1 ws2 : str) :
  Forall (fun c => int_space c = true) ws1 -> Forall (fun c => int_space c = true) ws2 ->
  (List.length (nat_digits (Z.abs n)) <= max_str_digits)%nat ->
  py_int (PStr (ws1 ++ py_str_int n ++ ws2)) = Ok n.
Proof. exact (py_int_of_str_int n ws1 ws2). Qed.














(** X3: with [CHECK_INTERVAL] and [SMTP_PORT] unset, [Config.from_env()]
    uses the defaults 1800 and 587, and [main] reports exactly the string
    fields whose variable is unset or set to the empty string. *)
Theorem from_env_defaults (env : environ) :
  env_lookup env "CHECK_INTERVAL" = None -> env_lookup env "SMTP_PORT" = None ->
  exists c, from_env env = Ok c /\ check_interval c = 1800 /\ smtp_port c = 587 /\
    main_env env = Ok (main c) /\
    (forall f, In (FieldEmpty f) (validate c) <->
               exists var, In (f, var) string_vars /\ getenv_str env var = []).
Proof.
  intros H1 H2; eexists; split; [unfold from_env, getenv; rewrite H1, H2; reflexivity|].
  split; [reflexivity|]; split; [reflexivity|].
  split; [unfold main_env, from_env, getenv; rewrite H1, H2; reflexivity|].
  intros f; rewrite validate_in; unfold config_items, string_vars; cbn [In]; split.
  - intros [v [Hin Hf]].
    repeat destruct Hin as [Hin | Hin]; try contradiction; injection Hin as <- <-;
      try discriminate Hf;
      eexists; (split; [cbn; tauto | destruct (getenv_str env _); [reflexivity | discriminate Hf]]).
  - intros [var [Hin He]].
    repeat destruct Hin as [Hin | Hin]; try contradiction; injection Hin as <- <-;
      eexists; (split; [cbn; tauto | rewrite He; reflexivity]).
Qed.


(** ** Further properties: [check_discount] *)

Lemma check_result_exc kws g x :
  check_result kws g = Exc x ->
  x = KeyboardInterrupt /\
  (g = Exc KeyboardInterrupt \/
   exists st, (400 <=? st) && (st <? 600) = false /\ g = Ok (MkResponse st (Exc KeyboardInterrupt))).
Proof.
  unfold check_result, check_discount, try_except, bind, lift, raise_for_status, ret, raise, log, emit.
  destruct g as [[st b]|y]; cbn [status_code body].
  - destruct ((400 <=? st) && (st <? 600)) eqn:Hs; cbn; [discriminate|].
    destruct b as [ns|y]; cbn.
    + destruct (detect kws (page_text ns)); cbn; discriminate.
    + destruct y; cbn; try discriminate; intros H; injection H as <-; split; [reflexivity|].
      right; exists st; split; [exact Hs | reflexivity].
  - destruct y; cbn; try discriminate; intros H; injection H as <-; auto.
Qed.

Lemma check_log_quiet_events kws g :
  filter is_slept (check_log kws g) = [] /\ filter is_loop_error (check_log kws g) = [] /\
  (List.length (check_log kws g) <= 1)%nat.
Proof.
  unfold check_log, check_discount, try_except, bind, lift, raise_for_status, ret, raise, log, emit.
  destruct g as [[st b]|y]; cbn [status_code body].
  - destruct ((400 <=? st) && (st <? 600)); cbn; [repeat split; auto|].
    destruct b as [ns|y]; cbn; [destruct (detect kws (page_text ns)); cbn; repeat split; auto|].
    destruct y; cbn; repeat split; auto.
  - destruct y; cbn; repeat split; auto.
Qed.

(** X5: [check_discount] lets no exception escape but [KeyboardInterrupt],
    which escapes exactly when it interrupts the request or the parse; it
    writes at most one log line. *)
Theorem check_discount_only_interrupt_escapes (kws : list str) (g : res response) :
  (forall x, check_result kws g = Exc x -> x = KeyboardInterrupt) /\
  (check_result kws g = Exc KeyboardInterrupt <->
   g = Exc KeyboardInterrupt \/
   exists st, (400 <=? st) && (st <? 600) = false /\ g = Ok (MkResponse st (Exc KeyboardInterrupt))) /\
  (List.length (check_log kws g) <= 1)%nat.
Proof.
  split; [intros x H; apply (check_result_exc kws g x H)|].
  split; [|apply check_log_quiet_events].
  split; [intros H; apply (check_result_exc kws g _ H)|].
  intros [-> | [st [Hs ->]]].
  - reflexivity.
  - unfold check_result, check_discount, try_except, bind, lift, raise_for_status, ret, raise;
      cbn [status_code body]; rewrite Hs; reflexivity.
Qed.

Lemma decompose_list_map_text f cs :
  Forall (fun n => decompose_node (map_text f n) = map (map_text f) (decompose_node n)) cs ->
  decompose (map (map_text f) cs) = map (map_text f) (decompose cs).
Proof.
  induction 1 as [|n cs Hn _ IH]; [reflexivity|].
  cbn [map]; rewrite !decompose_cons, Hn, IH, map_app; reflexivity.
Qed.

Lemma decompose_map_text f ns :
  decompose (map (map_text f) ns) = map (map_text f) (decompose ns).
Proof.
  apply decompose_list_map_text; induction ns as [|n ns IH]; constructor; [|exact IH].
  induction n as [t | g cs Hcs] using node_rect'; [reflexivity|].
  cbn [map_text]; rewrite !decompose_node_elem; destruct (removed_tag g); [reflexivity|].
  rewrite (decompose_list_map_text f cs Hcs); reflexivity.
Qed.

Lemma strings_list_map_text f cs :
  Forall (fun n => node_strings (map_text f n) = map f (node_strings n)) cs ->
  strings (map (map_text f) cs) = map f (strings cs).
Proof.
  induction 1 as [|n cs Hn _ IH]; [reflexivity|].
  cbn [map]; rewrite !strings_cons, Hn, IH, map_app; reflexivity.
Qed.

Lemma strings_map_text f ns : strings (map (map_text f) ns) = map f (strings ns).
Proof.
  apply strings_list_map_text; induction ns as [|n ns IH]; constructor; [|exact IH].
  induction n as [t | g cs Hcs] using node_rect'; [reflexivity|].
  cbn [map_text]; rewrite !node_strings_elem; destruct (string_container g); [reflexivity|].
  apply strings_list_map_text, Hcs.
Qed.

Section CaseMap.
Variable h : ascii -> ascii.
Hypothesis h_lower : forall c, lower_char (h c) = lower_char c.

Lemma h_space c : is_space (h c) = is_space c.
Proof. rewrite <- is_space_lower, h_lower, is_space_lower; reflexivity. Qed.

Lemma lstrip_map_h t : lstrip (map h t) = map h (lstrip t).
Proof. induction t as [|c t IH]; cbn; [reflexivity|]; rewrite h_space; destruct (is_space c); auto. Qed.

Lemma strip_map_h t : strip (map h t) = map h (strip t).
Proof. unfold strip; rewrite lstrip_map_h, <- map_rev, lstrip_map_h, map_rev; reflexivity. Qed.

Lemma page_text_map_h ns : page_text (map (map_text (map h)) ns) = page_text ns.
Proof.
  unfold page_text, get_text; rewrite decompose_map_text, strings_map_text, map_map.
  rewrite (map_ext (fun x => strip (map h x)) (fun x => map h (strip x))) by apply strip_map_h.
  rewrite <- (map_map strip (map h)).
  assert (Hf : forall l, filter nonempty (map (map h) l) = map (map h) (filter nonempty l)).
  { induction l as [|x l IH]; cbn; [reflexivity|]; destruct x; cbn; rewrite IH; reflexivity. }
  rewrite Hf; unfold py_lower; rewrite !map_join, map_map.
  f_equal; apply map_ext; intros x; rewrite map_map; apply map_ext; exact h_lower.
Qed.
End CaseMap.

Lemma lower_upper c : lower_char (upper_char c) = lower_char c.
Proof. destruct c as [[] [] [] [] [] [] [] []]; reflexivity. Qed.

Lemma lower_lower c : lower_char (lower_char c) = lower_char c.
Proof. destruct c as [[] [] [] [] [] [] [] []]; reflexivity. Qed.

Lemma check_discount_page_text kws st ns ns' s :
  page_text ns' = page_text ns ->
  check_discount kws (Ok (MkResponse st (Ok ns'))) s = check_discount kws (Ok (MkResponse st (Ok ns))) s.
Proof.
  intros H; destruct ((400 <=? st) && (st <? 600)) eqn:Hs.
  - unfold check_discount, try_except, bind, lift, raise_for_status; cbn [status_code]; rewrite Hs;
      reflexivity.
  - rewrite !check_page by exact Hs; rewrite H; reflexivity.
Qed.

(** X6: detection ignores letter case: upper-casing or lower-casing every
    text node of the page changes neither the result of [check_discount]
    nor what it logs. *)
Theorem check_discount_case_insensitive (kws : list str) (st : Z) (ns : list node) (s : mstate) :
  check_discount kws (Ok (MkResponse st (Ok (map (map_text py_upper) ns)))) s
  = check_discount kws (Ok (MkResponse st (Ok ns))) s /\
  check_discount kws (Ok (MkResponse st (Ok (map (map_text py_lower) ns)))) s
  = check_discount kws (Ok (MkResponse st (Ok ns))) s.
Proof.
  split; apply check_discount_page_text; [apply (page_text_map_h upper_char lower_upper)
                                         | apply (page_text_map_h lower_char lower_lower)].
Qed.


(** X8: every keyword with a space ('% off', 'special offer') contains
    'off', so whenever one is found in a text, 'off' is found too. *)
Theorem spaced_keyword_implies_off (text kw : str) :
  In kw (detect keywords text) -> In " "%char kw -> In (py "off") (detect keywords text).
Proof.
  rewrite !detect_spec; intros [Hk Hi] Hsp; split; [cbn; tauto|].
  apply infix_trans with kw; [|exact Hi].
  cbn in Hk; repeat destruct Hk as [<- | Hk]; try contradiction;
    try (cbn in Hsp; repeat destruct Hsp as [Hsp | Hsp]; discriminate || contradiction);
    apply infixb_spec; reflexivity.
Qed.

(** ** Further properties: [send_email] *)

(** X9: [send_email] never changes [last_sent]; it opens one SMTP session
    per call; it returns [True] exactly when the session and the closing
    QUIT both succeed; it lets no exception escape but
    [KeyboardInterrupt]; on [False] it logs exactly one error line and no
    success line; and the message is delivered whenever the session
    succeeds, even when a failing QUIT then makes it return [False]. *)
Theorem send_email_outcome (session quit : res unit) (s : mstate) :
  last_sent (snd (send_email session quit s)) = last_sent s /\
  filter is_connect (send_log session quit) = [SmtpConnect] /\
  (send_result session quit = Ok true <-> session = Ok tt /\ quit = Ok tt) /\
  (forall x, send_result session quit = Exc x -> x = KeyboardInterrupt) /\
  (send_result session quit = Ok false ->
     List.length (filter is_error_log (send_log session quit)) = 1%nat /\
     sent_count (send_log session quit) = 0%nat) /\
  (In MailDelivered (send_log session quit) <-> session = Ok tt).
Proof.
  destruct s as [ls tr]; rewrite send_email_run; split; [reflexivity|].
  unfold send_result, send_log, send_email, try_except, bind, lift, ret, raise, log, emit.
  destruct session as [[]|x]; [destruct quit as [[]|y]; [|destruct y] | destruct x];
    cbn; repeat split; intros; try discriminate; try reflexivity;
    repeat match goal with
           | H : _ /\ _ |- _ => destruct H
           | H : _ \/ _ |- _ => destruct H
           | H : Ok _ = Ok _ |- _ => injection H as H
           | H : Exc _ = Exc _ |- _ => injection H as H
           end; subst; try discriminate; try tauto; try reflexivity.
Qed.

(** ** Further properties: the [run] loop *)

Lemma send_result_exc session quit x :
  send_result session quit = Exc x ->
  x = KeyboardInterrupt /\
  (session = Exc KeyboardInterrupt \/ (session = Ok tt /\ quit = Exc KeyboardInterrupt)).
Proof.
  unfold send_result, send_email, try_except, bind, lift, ret, raise, log, emit.
  destruct session as [[]|y]; [destruct quit as [[]|z]; [|destruct z] | destruct y];
    cbn; try discriminate; intros H; injection H as <-; auto.
Qed.

Lemma send_log_quiet_events session quit :
  filter is_slept (send_log session quit) = [] /\ filter is_loop_error (send_log session quit) = [].
Proof.
  unfold send_log, send_email, try_except, bind, lift, ret, raise, log, emit.
  destruct session as [[]|y]; [destruct quit as [[]|z]; [|destruct z] | destruct y]; split; reflexivity.
Qed.

Lemma iteration_no_interrupt c e ls tr :
  no_interrupt e = true -> ce_recovery_clock e + 300 * 10 ^ 9 <= pytime_max ->
  exists ls' d, iteration c e (MState ls tr) = (Ok Continue, MState ls' (tr ++ d)) /\
    filter is_slept d
      = [Slept (match sleep_error (check_interval c) (ce_clock e) with
                | Some _ => 300 | None => check_interval c end)] /\
    filter is_loop_error d
      = match sleep_error (check_interval c) (ce_clock e) with
        | Some _ => [Log ERROR MsgLoopError] | None => [] end.
Proof.
  intros H Hr; unfold no_interrupt in H; repeat rewrite andb_true_iff in H.
  destruct H as [[[[[H1 H2] H3] H4] H5] H6].
  apply negb_true_iff in H5, H6.
  assert (Hr' : (pytime_max <? ce_recovery_clock e + 300 * 10 ^ 9) = false) by (apply Z.ltb_ge; lia).
  destruct (check_log_quiet_events keywords (ce_get e)) as (Hc1 & Hc2 & _).
  destruct (send_log_quiet_events (ce_session e) (ce_quit e)) as [Hs1 Hs2].
  rewrite iteration_run, cycle_run.
  destruct (check_result keywords (ce_get e)) as [[|]|x] eqn:Ec.
  3: { apply check_result_exc in Ec as [-> [Hg | [st [_ Hg]]]]; rewrite Hg in H1, H2; discriminate. }
  1: destruct (cooldown <? ce_now e - ls);
       [destruct (send_result (ce_session e) (ce_quit e)) as [ok|x] eqn:Es;
        [| apply send_result_exc in Es as [-> [Hq | [_ Hq]]];
           [rewrite Hq in H3 | rewrite Hq in H4]; discriminate] |].
  all: rewrite sleep_run; destruct (sleep_error (check_interval c) (ce_clock e)) as [x|] eqn:Ese;
    [destruct x; try (exfalso; exact (sleep_error_exc _ _ _ Ese eq_refl)) |];
    cbn -[check_log send_log keywords sleep pytime_max]; rewrite ?sleep_300_run, ?Hr', ?H5, ?H6;
    cbn -[check_log send_log keywords pytime_max];
    rewrite <- ?app_assoc; eexists _, _; (split; [reflexivity|]);
    rewrite ?filter_app, ?Hc1, ?Hc2, ?Hs1, ?Hs2; split; reflexivity.
Qed.

(** X10: when no operator interrupt arrives, the loop goes through every
    cycle whatever the request, the parse and the SMTP exchange do, as
    long as the 300 s recovery sleep cannot fail: each cycle ends with one
    sleep of [check_interval] seconds and logs no main loop error when
    [time.sleep(check_interval)] can run, and otherwise (a negative or
    too large interval, or a deadline past the clock's range) logs one
    main loop error and sleeps the 300 s of the recovery instead. *)
Theorem loop_runs_every_cycle (c : Config) (es : list cycle_env) (ls : Z) (tr : list event) :
  Forall (fun e => no_interrupt e = true /\ ce_recovery_clock e + 300 * 10 ^ 9 <= pytime_max) es ->
  exists ls' d, run_cycles c es (MState ls tr) = (Ok StillRunning, MState ls' (tr ++ d)) /\
    filter is_slept d
      = map (fun e => Slept (match sleep_error (check_interval c) (ce_clock e) with
                             | Some _ => 300 | None => check_interval c end)) es /\
    filter is_loop_error d
      = flat_map (fun e => match sleep_error (check_interval c) (ce_clock e) with
                           | Some _ => [Log ERROR MsgLoopError] | None => [] end) es.
Proof.
  intros Hall; revert ls tr; induction Hall as [|e es [He Hre] _ IH]; intros ls tr.
  - exists ls, []; rewrite app_nil_r; split; [reflexivity|]; split; reflexivity.
  - destruct (iteration_no_interrupt c e ls tr He Hre) as (ls1 & d1 & Hit & Hs1 & Hl1).
    destruct (IH ls1 (tr ++ d1)) as (ls2 & d2 & Hr & Hs2 & Hl2).
    cbn [run_cycles]; unfold bind at 1; rewrite Hit, Hr.
    exists ls2, (d1 ++ d2); rewrite app_assoc; split; [reflexivity|].
    rewrite !filter_app, Hs1, Hs2, Hl1, Hl2; split; reflexivity.
Qed.

Lemma iteration_exit c e s r s' :
  iteration c e s = (r, s') ->
  (r = Ok Break -> exists p, trace s' = p ++ [Log INFO MsgInterrupted]) /\
  (forall x, r = Exc x ->
     (x = KeyboardInterrupt \/ (x = OSError /\ pytime_max < ce_recovery_clock e + 300 * 10 ^ 9)) /\
     exists p, trace s' = p ++ [Log ERROR MsgLoopError]).
Proof.
  rewrite iteration_run; destruct (cycle c e s) as [[u|x] [ls1 tr1]].
  - intros H; injection H as <- <-; split; intros; discriminate.
  - destruct x;
      [intros H; injection H as <- <-; split; [intros _; eexists; reflexivity | intros; discriminate]
      | cbn -[sleep pytime_max]; rewrite sleep_300_run;
        destruct (pytime_max <? ce_recovery_clock e + 300 * 10 ^ 9) eqn:Hr, (ce_recovery_intr e);
        intros H; injection H as <- <-; split; intros; try discriminate;
        match goal with H : Exc _ = Exc _ |- _ => injection H as <- end;
        (split; [first [left; reflexivity | right; split; [reflexivity | apply Z.ltb_lt; exact Hr]]
                | eexists; reflexivity]) .. ].
Qed.

Lemma run_cycles_exit c es : forall s r s',
  run_cycles c es s = (r, s') ->
  (r = Ok LoopExited -> exists p, trace s' = p ++ [Log INFO MsgInterrupted]) /\
  (forall x, r = Exc x ->
     (x = KeyboardInterrupt \/
      (x = OSError /\ Exists (fun e => pytime_max < ce_recovery_clock e + 300 * 10 ^ 9) es)) /\
     exists p, trace s' = p ++ [Log ERROR MsgLoopError]).
Proof.
  induction es as [|e es IH]; intros s r s' H; cbn [run_cycles] in H.
  - unfold ret in H; injection H as <- <-; split; intros; discriminate.
  - unfold bind in H; destruct (iteration c e s) as [r1 s1] eqn:E.
    destruct (iteration_exit c e s r1 s1 E) as [Hb Hx].
    destruct r1 as [[|]|x].
    + destruct (IH s1 r s' H) as [H1 H2]; split; [exact H1|].
      intros y Hy; destruct (H2 y Hy) as [[Hk | [Ho He]] Hp]; (split; [|exact Hp]);
        [left; exact Hk | right; split; [exact Ho | constructor 2; exact He]].
    + unfold ret in H; injection H as <- <-; split; [intros _; apply Hb; reflexivity | intros; discriminate].
    + injection H as <- <-; split; [intros; discriminate|].
      intros y Hy; injection Hy as Hy; subst y.
      destruct (Hx x eq_refl) as [[Hk | [Ho He]] Hp]; (split; [|exact Hp]);
        [left; exact Hk | right; split; [exact Ho | constructor 1; exact He]].
Qed.

(** X11: the loop ends by [break] only right after logging the shutdown line
    "用户中断监控"; an exception escapes [run] only right after a main loop
    error was logged, from the 300 s recovery sleep, and it is
    [KeyboardInterrupt] (that sleep was interrupted) unless the deadline
    of some cycle's recovery sleep is past the range of the monotonic
    clock, where it may be [OSError]. *)
Theorem run_ends_only_by_interrupt (c : Config) (es : list cycle_env) (s s' : mstate) (r : res loop_status) :
  run c es s = (r, s') ->
  (r = Ok LoopExited -> exists p, trace s' = p ++ [Log INFO MsgInterrupted]) /\
  (forall x, r = Exc x ->
     (x = KeyboardInterrupt \/
      (x = OSError /\ Exists (fun e => pytime_max < ce_recovery_clock e + 300 * 10 ^ 9) es)) /\
     exists p, trace s' = p ++ [Log ERROR MsgLoopError]).
Proof. unfold run, bind at 1, log, emit; apply run_cycles_exit. Qed.

Lemma run_cycles_no_match_quiet c es : forall s,
  Forall (fun e => check_result keywords (ce_get e) <> Ok true) es ->
  filter is_connect (trace (snd (run_cycles c es s))) = filter is_connect (trace s) /\
  last_sent (snd (run_cycles c es s)) = last_sent s.
Proof.
  induction es as [|e es IH]; intros [ls tr] Hall; [split; reflexivity|].
  inversion Hall as [|? ? Hne Hrest]; subst.
  destruct (iteration_summary c e ls tr) as [Hls Hcn].
  assert (Ha : attempts e ls = false).
  { unfold attempts; destruct (check_result keywords (ce_get e)) as [[|]|x]; [contradiction | reflexivity | reflexivity]. }
  rewrite Ha in Hls, Hcn; cbn [andb] in Hls; rewrite app_nil_r in Hcn.
  cbn [run_cycles]; unfold bind.
  destruct (iteration c e (MState ls tr)) as [[[|]|x] s1] eqn:E; cbn [snd] in Hls, Hcn |- *;
    [destruct (IH s1 Hrest) as [H1 H2]; rewrite H1, H2; split; assumption
    | unfold ret; cbn [snd]; split; assumption
    | split; assumption].
Qed.

(** X12: in a run where no cycle finds a keyword, no SMTP session is ever
    opened and [last_sent] keeps its initial value 0, whatever else
    happens. *)
Theorem run_without_match_sends_nothing (c : Config) (es : list cycle_env) :
  Forall (fun e => check_result keywords (ce_get e) <> Ok true) es ->
  filter is_connect (trace (snd (run c es monitor_init))) = [] /\
  last_sent (snd (run c es monitor_init)) = 0.
Proof.
  intros Hall; unfold run, bind, log, emit.
  destruct (run_cycles_no_match_quiet c es (MState (last_sent monitor_init) (trace monitor_init ++ [Log INFO MsgStart])) Hall)
    as [H1 H2].
  rewrite H1, H2; split; reflexivity.
Qed.

(** ** Examples of the further properties *)

Lemma py_int_str_int_witness :
  py_int (PStr ([" "%char] ++ py_str_int (-1800) ++ ["010"%char; "160"%char])) = Ok (-1800).
Proof.
  apply (py_int_str_int (-1800) [" "%char] ["010"%char; "160"%char]);
    [repeat constructor | repeat constructor | apply Nat.leb_le; vm_compute; reflexivity].
Defined.


Lemma from_env_defaults_witness :
  exists c, from_env env_partial = Ok c /\ check_interval c = 1800 /\ smtp_port c = 587 /\
    main_env env_partial = Ok (main c) /\
    (forall f, In (FieldEmpty f) (validate c) <->
               exists var, In (f, var) string_vars /\ getenv_str env_partial var = []).
Proof. apply from_env_defaults; reflexivity. Defined.



Lemma spaced_keyword_implies_off_witness :
  In (py "off") (detect keywords (py "50% off today")).
Proof.
  apply (spaced_keyword_implies_off (py "50% off today") (py "% off"));
    [vm_compute; tauto | cbn; tauto].
Defined.

Lemma loop_runs_every_cycle_witness :
  exists ls' d, run_cycles cfg_neg [env_quiet; env_send_fails] (MState 0 [])
                = (Ok StillRunning, MState ls' ([] ++ d)) /\
    filter is_slept d
      = map (fun e => Slept (match sleep_error (check_interval cfg_neg) (ce_clock e) with
                             | Some _ => 300 | None => check_interval cfg_neg end))
            [env_quiet; env_send_fails] /\
    filter is_loop_error d
      = flat_map (fun e => match sleep_error (check_interval cfg_neg) (ce_clock e) with
                           | Some _ => [Log ERROR MsgLoopError] | None => [] end)
                 [env_quiet; env_send_fails].
Proof.
  apply (loop_runs_every_cycle cfg_neg [env_quiet; env_send_fails] 0 []).
  repeat apply Forall_cons; try apply Forall_nil;
    (split; [reflexivity | apply Z.leb_le; vm_compute; reflexivity]).
Defined.

Lemma run_ends_only_by_interrupt_witness :
  fst (run cfg1 [env_quiet; env_stop] monitor_init) = Ok LoopExited /\
  exists p, trace (snd (run cfg1 [env_quiet; env_stop] monitor_init))
            = p ++ [Log INFO MsgInterrupted].
Proof.
  assert (Hr : fst (run cfg1 [env_quiet; env_stop] monitor_init) = Ok LoopExited)
    by (vm_compute; reflexivity).
  split; [exact Hr|].
  exact (proj1 (run_ends_only_by_interrupt cfg1 [env_quiet; env_stop] monitor_init
                  (snd (run cfg1 [env_quiet; env_stop] monitor_init))
                  (fst (run cfg1 [env_quiet; env_stop] monitor_init)) eq_refl) Hr).
Defined.

Lemma run_without_match_sends_nothing_witness :
  filter is_connect (trace (snd (run cfg1 [env_quiet; env_down] monitor_init))) = [] /\
  last_sent (snd (run cfg1 [env_quiet; env_down] monitor_init)) = 0.
Proof.
  apply run_without_match_sends_nothing;
    repeat apply Forall_cons; try apply Forall_nil; intros H; vm_compute in H; discriminate H.
Defined.
